(** * screenshots/crop.py: resize to width 1200, crop to 1200x630, save

    A shallow embedding of the script [src/screenshots/crop.py] together
    with the part of the Python and Pillow semantics it relies on:

    - [PyNum]: Python's [int / int] true division (a correctly rounded
      binary64 quotient) and [int(float)] truncation, on exact integers;
    - [PIL]: Pillow's image objects, [Image.resize] and [Image.crop];
    - [script]: the module body itself, run in a world made of a file
      system and a store of image objects.

    The resampling arithmetic, the PNG codec and what the machine can
    allocate are parameters. Pillow decodes the pixel data of an opened
    file when it is first needed, in [resize]; nothing the script does
    in between can fail for a file that opened, so the model decodes at
    [Image.open] and raises there the exception the script ends with.
    Left out: a write that fails. *)

From Stdlib Require PrimFloat FloatOps SpecFloat Uint63.
From stdpp Require Import base numbers list strings gmap fin_maps.

Local Open Scope Z_scope.

(** ** Exceptions and results *)

(** The exceptions of the model. [ReferenceError] stands for the use of
    a reference that holds no object; no run of the script raises it
    ([script_raises]). *)
Inductive PyError : Type :=
  | FileNotFoundError
  | UnidentifiedImageError
  | DecompressionBombError
  | OSError
  | ZeroDivisionError
  | OverflowError
  | ValueError
  | MemoryError
  | ReferenceError.

Inductive Result (A : Type) : Type :=
  | Ok (a : A)
  | Raise (e : PyError).

Arguments Ok {A} a.
Arguments Raise {A} e.

Definition result_bind {A B} (r : Result A) (k : A → Result B) : Result B :=
  match r with
  | Ok a => k a
  | Raise e => Raise e
  end.

(** ** Python numbers *)

Module PyNum.

(** A finite Python float: the dyadic rational [mant * 2 ^ expo]. *)
Record pyfloat : Type := Dyadic { mant : Z; expo : Z }.

(** binary64: 53 bits of precision, least exponent of a subnormal. *)
Definition prec : Z := 53.
Definition emin : Z := -1074.
Definition huge : Z := 2 ^ 1024.

(** Quotient, remainder and divisor of [a / (b * 2 ^ e)]. *)
Definition scaled_divmod (a b e : Z) : Z * Z * Z :=
  if 0 <=? e
  then (a / (b * 2 ^ e), a mod (b * 2 ^ e), b * 2 ^ e)
  else ((a * 2 ^ (- e)) / b, (a * 2 ^ (- e)) mod b, b).

Definition scaled_quot (a b e : Z) : Z := (scaled_divmod a b e).1.1.

(** Round [q + r / d] to the nearest integer, ties to even. *)
Definition round_half_even (q r d : Z) : Z :=
  if 2 * r <? d then q
  else if d <? 2 * r then q + 1
  else if Z.even q then q else q + 1.

(** The exponent [e] at which [a / (b * 2 ^ e)] has 53 bits, not below
    the subnormal range. *)
Definition binade (a b : Z) : Z :=
  let e0 := Z.log2 a - Z.log2 b - prec in
  let e1 := if 2 ^ prec <=? scaled_quot a b e0 then e0 + 1 else e0 in
  Z.max e1 emin.

(** [a / b] for positive [a] and [b]. *)
Definition divide_pos (a b : Z) : Result pyfloat :=
  let e := binade a b in
  let '(q, r, d) := scaled_divmod a b e in
  let m := round_half_even q r d in
  if (0 <=? e) && (huge <=? m * 2 ^ e) then Raise OverflowError
  else Ok (Dyadic m e).

(** Python's [a / b] on two ints: the binary64 float nearest to the
    exact quotient (ties to even), [ZeroDivisionError] when [b] is zero,
    [OverflowError] when the quotient is too large for a float. *)
Definition true_divide (a b : Z) : Result pyfloat :=
  if b =? 0 then Raise ZeroDivisionError
  else if a =? 0 then Ok (Dyadic 0 0)
  else
    result_bind (divide_pos (Z.abs a) (Z.abs b))
      (λ f, Ok (Dyadic (Z.sgn a * Z.sgn b * mant f) (expo f))).

(** Python's [int(x)] on a finite float: truncation towards zero. *)
Definition int (x : pyfloat) : Z :=
  if 0 <=? expo x then mant x * 2 ^ expo x
  else Z.quot (mant x) (2 ^ (- expo x)).

(** The same quotient on the floats of the machine, for operands that
    convert to a float without rounding; used to test the model. *)
Definition machine_divide (a b : Z) : SpecFloat.spec_float :=
  FloatOps.Prim2SF
    (PrimFloat.div (PrimFloat.of_uint63 (Uint63.of_Z a))
                   (PrimFloat.of_uint63 (Uint63.of_Z b))).

Definition to_spec_float (x : pyfloat) : SpecFloat.spec_float :=
  match mant x with
  | Z0 => SpecFloat.S754_zero false
  | Zpos m => SpecFloat.S754_finite false m (expo x)
  | Zneg m => SpecFloat.S754_finite true m (expo x)
  end.

End PyNum.

(** ** The height computation of the script *)

Definition new_width : Z := 1200.

(** [new_height = int(new_width * original_height / original_width)] *)
Definition new_height (original_width original_height : Z) : Result Z :=
  result_bind (PyNum.true_divide (new_width * original_height) original_width)
    (λ x, Ok (PyNum.int x)).

(** ** Pillow images *)

Module PIL.

(** The modes a PNG file decodes to ([M_I16] is Pillow's ["I;16"]). *)
Inductive Mode : Type :=
  | M_1 | M_L | M_LA | M_P | M_RGB | M_RGBA | M_I | M_I16.

Definition bands (m : Mode) : nat :=
  match m with
  | M_1 | M_L | M_P | M_I | M_I16 => 1
  | M_LA => 2
  | M_RGB => 3
  | M_RGBA => 4
  end%nat.

Definition has_alpha (m : Mode) : bool :=
  match m with
  | M_LA | M_RGBA => true
  | _ => false
  end.

(** A pixel is the list of its band values. *)
Definition Pixel : Type := list Z.

(** The value [ImagingFill] writes with a zero ink. *)
Definition zero_pixel (m : Mode) : Pixel := replicate (bands m) 0.

(** An image object: mode, [size = (width, height)] and the rows of the
    pixel buffer, top row first. *)
Record Image : Type := mkImage {
  mode : Mode;
  size : Z * Z;
  data : list (list Pixel)
}.

Definition width (im : Image) : Z := (size im).1.
Definition height (im : Image) : Z := (size im).2.

(** The largest value the four-byte width and height fields of a PNG
    header hold. *)
Definition max_dimension : Z := 2 ^ 32 - 1.

(** A buffer that matches its declared size, of dimensions that a PNG
    header holds. *)
Definition wf_image (im : Image) : Prop :=
  0 ≤ width im ≤ max_dimension ∧
  0 ≤ height im ≤ max_dimension ∧
  length (data im) = Z.to_nat (height im) ∧
  Forall (λ row, length row = Z.to_nat (width im)) (data im).

(** What [Image.open] lets through: no dimension is zero, and the
    number of pixels is at most twice [Image.MAX_IMAGE_PIXELS] (beyond
    that it raises [DecompressionBombError]). *)
Definition max_pixels : Z := 2 * 89478485.

Definition openable (im : Image) : Prop :=
  1 ≤ width im ∧ 1 ≤ height im ∧ width im * height im ≤ max_pixels.

(** The range of a C [int], in which the core of Pillow takes a size. *)
Definition INT_MIN : Z := - 2 ^ 31.
Definition INT_MAX : Z := 2 ^ 31 - 1.

Definition fits_c_int (z : Z) : bool := (INT_MIN <=? z) && (z <=? INT_MAX).

Definition in_frame (im : Image) (x y : Z) : bool :=
  (0 <=? x) && (x <? width im) && (0 <=? y) && (y <? height im).

(** The pixel the buffer holds at column [x] of row [y], if it holds
    one. *)
Definition pixel_at (im : Image) (x y : Z) : option Pixel :=
  if (0 <=? x) && (0 <=? y)
  then data im !! Z.to_nat y ≫= λ row, row !! Z.to_nat x
  else None.

(** The read that [resize] and the paste of [crop] do: the pixel stored
    at column [x] of row [y], and the zero pixel where the buffer holds
    none. That a pixel is there is said by [pixel_at] and [wf_image]. *)
Definition getpixel (im : Image) (x y : Z) : Pixel :=
  default (zero_pixel (mode im))
    (data im !! Z.to_nat y ≫= λ row, row !! Z.to_nat x).

(** Fill a [w] by [h] buffer from a function of the coordinates. *)
Definition raster (w h : Z) (f : Z → Z → Pixel) : list (list Pixel) :=
  (λ y, (λ x, f x y) <$> seqZ 0 w) <$> seqZ 0 h.

(** The resampling arithmetic of Pillow (Lanczos convolution, nearest
    neighbour for modes 1 and P, premultiplied alpha for LA and RGBA) is
    kept abstract: [resample_pixel im size x y] is the pixel it computes
    for column [x], row [y] of the output of the given size. *)
Class Resampler : Type :=
  resample_pixel : Image → Z * Z → Z → Z → Pixel.

(** What the machine that runs the script can allocate:
    [can_resize im size] tells whether the tables and the output buffer
    of a resize of [im] to [size] fit. A machine that runs the script
    holds its output frame, so a resize of an opened image to a size
    within 1200 by 630 fits. *)
Class Machine : Type := {
  can_resize : Image → Z * Z → bool;
  can_resize_frame : ∀ im sz,
    wf_image im → openable im →
    1 ≤ sz.1 ≤ 1200 → 1 ≤ sz.2 ≤ 630 →
    can_resize im sz = true
}.

(** [Image.resize(size, resample=Image.LANCZOS)]: a copy when the size
    is already the requested one; otherwise the core takes the size as
    two C ints ([OverflowError] for a component out of their range),
    refuses a size with a component below 1 ("height and width must be
    > 0", [ValueError]), and allocates ([MemoryError] when that fails) a
    new buffer of exactly the requested size, in the same mode. *)
Definition resize `{Resampler} `{Machine}
    (self : Image) (sz : Z * Z) : Result Image :=
  if decide (size self = sz) then Ok self
  else if negb (fits_c_int sz.1 && fits_c_int sz.2) then Raise OverflowError
  else if (sz.1 <? 1) || (sz.2 <? 1) then Raise ValueError
  else if negb (can_resize self sz) then Raise MemoryError
  else Ok {| mode := mode self;
             size := sz;
             data := raster sz.1 sz.2 (resample_pixel self sz) |}.

(** [Image.crop(box)] with [box = (left, upper, right, lower)]: a new
    image of size [(right - left, lower - upper)] in the same mode,
    zero-filled and then pasted over with the part of the source that
    lies inside the box. A box with [right < left] or [lower < upper]
    is refused. *)
Definition crop (self : Image) (box : Z * Z * Z * Z) : Result Image :=
  let '(x0, y0, x1, y1) := box in
  if x1 <? x0 then Raise ValueError
  else if y1 <? y0 then Raise ValueError
  else Ok {| mode := mode self;
             size := (x1 - x0, y1 - y0);
             data := raster (x1 - x0) (y1 - y0)
                       (λ x y, if in_frame self (x0 + x) (y0 + y)
                               then getpixel self (x0 + x) (y0 + y)
                               else zero_pixel (mode self)) |}.

(** The PNG reader and writer, kept abstract. [png_decode] is what
    opening and loading a file gives when both succeed: a well-formed
    buffer that [Image.open] lets through. [png_error] is the exception
    raised otherwise: [UnidentifiedImageError] (not an image, or a
    dimension of zero) or [DecompressionBombError] from [Image.open],
    [OSError] from the load of truncated data. *)
Class PngCodec : Type := {
  png_decode : list Byte.byte → option Image;
  png_encode : Image → list Byte.byte;
  png_error : list Byte.byte → PyError;
  png_decode_wf : ∀ bs im, png_decode bs = Some im → wf_image im;
  png_decode_openable : ∀ bs im, png_decode bs = Some im → openable im;
  png_error_kind : ∀ bs,
    png_error bs = UnidentifiedImageError ∨
    png_error bs = DecompressionBombError ∨
    png_error bs = OSError
}.

End PIL.

Import PIL.

(** Arithmetic goals over the constants of the model. *)
Ltac dims :=
  cbn [fst snd];
  unfold new_width, max_dimension, max_pixels, INT_MAX, INT_MIN in *;
  lia.

(** ** The world the script runs in *)

(** Files by name, and the image objects the interpreter holds. *)
Record World : Type := mkWorld {
  files : gmap string (list Byte.byte);
  objects : gmap positive Image
}.

(** A statement: it returns or raises, and leaves a world. *)
Definition Py (A : Type) : Type := World → Result A * World.

#[global] Instance Py_ret : MRet Py := λ A a w, (Ok a, w).

#[global] Instance Py_bind : MBind Py := λ A B k m w,
  match m w with
  | (Ok a, w') => k a w'
  | (Raise e, w') => (Raise e, w')
  end.

Definition lift {A} (r : Result A) : Py A := λ w, (r, w).

(** A new object, at a reference not in use. *)
Definition alloc (im : Image) : Py positive := λ w,
  let r := fresh (dom (objects w)) in
  (Ok r, {| files := files w; objects := <[r := im]> (objects w) |}).

Definition deref (r : positive) : Py Image := λ w,
  match objects w !! r with
  | Some im => (Ok im, w)
  | None => (Raise ReferenceError, w)
  end.

(** Create or replace a file. *)
Definition write_file (path : string) (bs : list Byte.byte) : Py unit := λ w,
  (Ok (), {| files := <[path := bs]> (files w); objects := objects w |}).

Section Statements.

Context `{Resampler} `{Machine} `{PngCodec}.

(** [Image.open(path)], with the load of the pixel data. *)
Definition Image_open (path : string) : Py positive := λ w,
  match files w !! path with
  | None => (Raise FileNotFoundError, w)
  | Some bs =>
      match png_decode bs with
      | None => (Raise (png_error bs), w)
      | Some im => alloc im w
      end
  end.

(** [image.size] *)
Definition Image_size (self : positive) : Py (Z * Z) :=
  im ← deref self; mret (size im).

(** [image.resize(size, resample=Image.LANCZOS)] *)
Definition Image_resize (self : positive) (sz : Z * Z) : Py positive :=
  im ← deref self; out ← lift (resize im sz); alloc out.

(** [image.crop(box)] *)
Definition Image_crop (self : positive) (box : Z * Z * Z * Z) : Py positive :=
  im ← deref self; out ← lift (crop im box); alloc out.

(** [image.save(path)] *)
Definition Image_save (self : positive) (path : string) : Py unit :=
  im ← deref self; write_file path (png_encode im).

End Statements.

(** ** The script *)

Definition left : Z := 0.
Definition top : Z := 0.
Definition right : Z := 1200.
Definition bottom : Z := 630.

Definition source_path : string := "ChangeList.png".
Definition output_path : string := "ChangeList_crop.png".

Section Script.

Context `{Resampler} `{Machine} `{PngCodec}.

(** The module body of [crop.py], statement by statement. *)
Definition script : Py unit :=
  image ← Image_open source_path;
  '(original_width, original_height) ← Image_size image;
  new_height ← lift (new_height original_width original_height);
  resized_image ← Image_resize image (new_width, new_height);
  cropped_image ← Image_crop resized_image (left, top, right, bottom);
  Image_save cropped_image output_path.

(** The statements that follow [Image.open], given the reference it
    returned. *)
Definition after_open (image : positive) : Py unit :=
  '(original_width, original_height) ← Image_size image;
  new_height ← lift (new_height original_width original_height);
  resized_image ← Image_resize image (new_width, new_height);
  cropped_image ← Image_crop resized_image (left, top, right, bottom);
  Image_save cropped_image output_path.

(** What the script does to the decoded image, without the world. *)
Definition transform (image : Image) : Result Image :=
  result_bind (new_height (width image) (height image)) (λ new_height,
  result_bind (resize image (new_width, new_height)) (λ resized_image,
  crop resized_image (left, top, right, bottom))).

(** The image the script saves, or the exception it ends with, read
    off the source file alone. *)
Definition outcome (w : World) : Result Image :=
  match files w !! source_path with
  | None => Raise FileNotFoundError
  | Some bs =>
      match png_decode bs with
      | None => Raise (png_error bs)
      | Some image => transform image
      end
  end.

End Script.

(** Frame conditions on a statement: every object it finds is still there
    afterwards, and every file but the one at [path] is as it was. *)
Definition keeps_objects {A} (m : Py A) : Prop :=
  ∀ w r im, objects w !! r = Some im → objects (m w).2 !! r = Some im.

Definition writes_only {A} (path : string) (m : Py A) : Prop :=
  ∀ w p, p ≠ path → files (m w).2 !! p = files w !! p.

(** ** Facts about the float model *)

Section TrueDivide.

Import PyNum.

(** Rounding moves the quotient up by at most one. *)
Lemma round_half_even_cases q r d :
  round_half_even q r d = q ∨
  (round_half_even q r d = q + 1 ∧ d ≤ 2 * r).
Proof.
  unfold round_half_even.
  destruct (Z.ltb_spec (2 * r) d); [by left|].
  destruct (Z.ltb_spec d (2 * r)); [right; lia|].
  destruct (Z.even q); [by left | right; lia].
Qed.

(** The arithmetic core: a 53-bit quotient of [a * 2 ^ s] by [b],
    rounded to nearest and then cut back to an integer, is the floor of
    [a / b] as long as [a + b] fits the precision. *)
Lemma rounded_quotient_floor a b P m :
  0 < a → 0 < b → 0 < P → a + b ≤ 2 ^ 53 →
  2 ^ 52 ≤ (a * P) / b →
  (m = (a * P) / b ∨ (m = (a * P) / b + 1 ∧ b ≤ 2 * ((a * P) mod b))) →
  m / P = a / b.
Proof.
  intros Ha Hb HP Hfit Hq Hm.
  pose proof (Z.div_mod a b ltac:(lia)) as Ea.
  pose proof (Z.mod_pos_bound a b Hb) as Ba.
  set (k := a / b) in *. set (t := a mod b) in *.
  pose proof (Z.div_mod (t * P) b ltac:(lia)) as Et.
  pose proof (Z.mod_pos_bound (t * P) b Hb) as Bt.
  set (u := (t * P) / b) in *. set (v := (t * P) mod b) in *.
  assert (0 ≤ k) by (apply Z.div_pos; lia).
  assert (0 ≤ u) by (apply Z.div_pos; nia).
  assert (u < P) by nia.
  assert (Eq : (a * P) / b = k * P + u).
  { symmetry. apply (Z.div_unique_pos _ _ _ v); [lia | nia]. }
  assert (Er : (a * P) mod b = v).
  { symmetry. apply (Z.mod_unique_pos _ _ (k * P + u)); [lia | nia]. }
  rewrite Eq, Er in *.
  destruct Hm as [-> | [-> Hup]].
  - symmetry. apply (Z.div_unique_pos _ _ _ u); lia.
  - destruct (decide (u = P - 1)) as [Hu | Hu].
    + exfalso.
      assert (1 ≤ b - t) by lia.
      assert ((b - t) * P = b - v) by nia.
      assert (2 * P ≤ b) by nia.
      assert (2 ^ 52 < (k + 1) * P) by lia.
      assert ((k + 1) * b ≤ 2 ^ 53) by nia.
      assert (2 * ((k + 1) * P) ≤ (k + 1) * b) by nia.
      lia.
    + symmetry. apply (Z.div_unique_pos _ _ _ (u + 1)); lia.
Qed.

Lemma scaled_divmod_neg a b e :
  e < 0 →
  scaled_divmod a b e = ((a * 2 ^ (- e)) / b, (a * 2 ^ (- e)) mod b, b).
Proof.
  intros He. unfold scaled_divmod.
  by rewrite (proj2 (Z.leb_gt 0 e) He).
Qed.

(** For operands below [2 ^ 52] the chosen exponent is negative, in the
    normal range, and the scaled quotient has at least 53 bits. *)
Lemma binade_small a b :
  0 < a < 2 ^ 52 → 0 < b < 2 ^ 52 →
  - 1074 < binade a b < 0 ∧ 2 ^ 52 ≤ (a * 2 ^ (- binade a b)) / b.
Proof.
  intros Ha Hb. unfold binade, scaled_quot, prec, emin.
  pose proof (Z.log2_spec a ltac:(lia)) as La.
  pose proof (Z.log2_spec b ltac:(lia)) as Lb.
  pose proof (Z.log2_nonneg a). pose proof (Z.log2_nonneg b).
  assert (Z.log2 a < 52) by (apply Z.log2_lt_pow2; lia).
  assert (Z.log2 b < 52) by (apply Z.log2_lt_pow2; lia).
  set (la := Z.log2 a) in *. set (lb := Z.log2 b) in *.
  set (e0 := la - lb - 53).
  assert (He0 : e0 < 0) by lia.
  rewrite (scaled_divmod_neg _ _ _ He0). cbn [fst].
  assert (Hs : - e0 = (53 + lb) - la) by lia.
  assert (Hn : 2 ^ 52 * b ≤ a * 2 ^ (- e0)).
  { rewrite Hs.
    assert (E : 2 ^ (53 + lb) = 2 ^ la * 2 ^ (53 + lb - la)).
    { rewrite <- Z.pow_add_r by lia. f_equal. lia. }
    assert (E' : 2 ^ (53 + lb) = 2 ^ 52 * 2 ^ (Z.succ lb)).
    { rewrite <- Z.pow_add_r by lia. f_equal. lia. }
    assert (0 < 2 ^ (53 + lb - la)) by (apply Z.pow_pos_nonneg; lia).
    nia. }
  assert (Hq0 : 2 ^ 52 ≤ (a * 2 ^ (- e0)) / b).
  { apply Z.div_le_lower_bound; lia. }
  destruct (Z.leb_spec (2 ^ 53) ((a * 2 ^ (- e0)) / b)) as [Hbig | Hsmall].
  - assert (e0 + 1 < 0) by lia.
    rewrite Z.max_l by lia. split; [lia|].
    assert (E2 : 2 ^ (- e0) = 2 * 2 ^ (- (e0 + 1))).
    { replace (- e0) with (Z.succ (- (e0 + 1))) by lia.
      rewrite Z.pow_succ_r by lia. done. }
    apply Z.div_le_lower_bound; [lia|].
    assert (2 ^ 53 * b ≤ a * 2 ^ (- e0)).
    { pose proof (Z.mul_div_le (a * 2 ^ (- e0)) b ltac:(lia)). nia. }
    change (2 ^ 53) with (2 * 2 ^ 52) in *. lia.
  - rewrite Z.max_l by lia. split; [lia | done].
Qed.

(** On ints that fit the precision, [int(a / b)] is floor division. *)
Lemma int_true_divide_floor a b :
  0 ≤ a < 2 ^ 52 → 0 < b < 2 ^ 52 →
  ∃ x, true_divide a b = Ok x ∧ int x = a / b.
Proof.
  intros Ha Hb. unfold true_divide.
  rewrite (proj2 (Z.eqb_neq b 0)) by lia.
  destruct (Z.eqb_spec a 0) as [-> | Hnz].
  { eexists; split; [done|]. by rewrite Z.div_0_l by lia. }
  rewrite (Z.abs_eq a), (Z.abs_eq b) by lia.
  rewrite (Z.sgn_pos a), (Z.sgn_pos b) by lia.
  destruct (binade_small a b ltac:(lia) ltac:(lia)) as [He Hq].
  unfold divide_pos.
  set (e := binade a b) in *.
  rewrite (scaled_divmod_neg _ _ _ (proj2 He)).
  rewrite (proj2 (Z.leb_gt 0 e)) by lia. cbn [andb result_bind].
  eexists; split; [done|].
  unfold int; cbn [mant expo].
  rewrite (proj2 (Z.leb_gt 0 e)) by lia.
  set (P := 2 ^ (- e)) in *.
  assert (0 < P) by (apply Z.pow_pos_nonneg; lia).
  set (m := round_half_even _ _ _).
  assert (Hm : m = (a * P) / b ∨
               (m = (a * P) / b + 1 ∧ b ≤ 2 * ((a * P) mod b)))
    by apply round_half_even_cases.
  assert (0 ≤ m) by lia.
  rewrite Z.mul_1_l, Z.quot_div_nonneg by lia.
  apply rounded_quotient_floor; lia.
Qed.

(** The model against the division of the machine. *)
Example true_divide_1_3 :
  to_spec_float <$> (match true_divide 1 3 with Ok x => Some x | _ => None end)
  = Some (machine_divide 1 3).
Proof. vm_compute. reflexivity. Qed.

Example true_divide_480000_1000 :
  to_spec_float <$>
    (match true_divide 480000 1000 with Ok x => Some x | _ => None end)
  = Some (machine_divide 480000 1000).
Proof. vm_compute. reflexivity. Qed.

Example true_divide_1200_2401 :
  to_spec_float <$>
    (match true_divide 1200 2401 with Ok x => Some x | _ => None end)
  = Some (machine_divide 1200 2401).
Proof. vm_compute. reflexivity. Qed.

Example true_divide_755999_1200 :
  to_spec_float <$>
    (match true_divide 755999 1200 with Ok x => Some x | _ => None end)
  = Some (machine_divide 755999 1200).
Proof. vm_compute. reflexivity. Qed.

(** Beyond the precision of a float the detour is not the floor: the
    quotient below is less than 1 and rounds to the float 1.0. *)
Example int_true_divide_beyond_precision :
  new_height (1200 * 2 ^ 60) (2 ^ 60 - 1) = Ok 1 ∧
  1200 * (2 ^ 60 - 1) / (1200 * 2 ^ 60) = 0.
Proof. split; vm_compute; reflexivity. Qed.

(** A quotient too large for a float. *)
Example true_divide_overflow :
  true_divide (2 ^ 1024) 1 = Raise OverflowError.
Proof. vm_compute. reflexivity. Qed.

End TrueDivide.

(** ** Facts about buffers *)

Section Buffers.

Implicit Types (im : Image) (f : Z → Z → Pixel).

Lemma raster_length w h f : length (raster w h f) = Z.to_nat h.
Proof. unfold raster. by rewrite length_fmap, length_seqZ. Qed.

Lemma raster_rows w h f :
  Forall (λ row, length row = Z.to_nat w) (raster w h f).
Proof.
  unfold raster. apply Forall_fmap, Forall_forall. intros y _. cbn.
  by rewrite length_fmap, length_seqZ.
Qed.

Lemma raster_row w h f (j : nat) :
  (Z.of_nat j < h) →
  raster w h f !! j = Some ((λ x, f x (Z.of_nat j)) <$> seqZ 0 w).
Proof.
  intros Hj. unfold raster.
  by rewrite list_lookup_fmap, lookup_seqZ_lt.
Qed.

Lemma raster_row_None w h f (j : nat) :
  (h ≤ Z.of_nat j) → raster w h f !! j = None.
Proof.
  intros Hj. unfold raster.
  by rewrite list_lookup_fmap, lookup_seqZ_ge.
Qed.

Lemma raster_lookup w h f x y :
  0 ≤ x < w → 0 ≤ y < h →
  raster w h f !! Z.to_nat y ≫= (λ row, row !! Z.to_nat x) = Some (f x y).
Proof.
  intros Hx Hy.
  rewrite raster_row by lia. cbn.
  rewrite list_lookup_fmap, lookup_seqZ_lt by lia. cbn.
  by rewrite !Z2Nat.id by lia.
Qed.

(** Reading back a buffer that was filled from a function. *)
Lemma getpixel_raster m w h f x y :
  0 ≤ x < w → 0 ≤ y < h →
  getpixel (mkImage m (w, h) (raster w h f)) x y = f x y.
Proof.
  intros Hx Hy. unfold getpixel. cbn [data].
  by rewrite raster_lookup.
Qed.

Lemma raster_wf m w h f :
  0 ≤ w ≤ max_dimension → 0 ≤ h ≤ max_dimension →
  wf_image (mkImage m (w, h) (raster w h f)).
Proof.
  intros Hw Hh. unfold wf_image, width, height. cbn.
  split_and!; try lia; [apply raster_length | apply raster_rows].
Qed.

Lemma in_frame_true im x y :
  0 ≤ x < width im → 0 ≤ y < height im → in_frame im x y = true.
Proof.
  intros Hx Hy. unfold in_frame.
  rewrite !andb_true_iff, !Z.leb_le, !Z.ltb_lt. lia.
Qed.

Lemma in_frame_below im x y :
  height im ≤ y → in_frame im x y = false.
Proof.
  intros Hy. unfold in_frame.
  rewrite (proj2 (Z.ltb_ge y (height im))) by lia.
  by rewrite andb_false_r.
Qed.

(** A well-formed buffer is the raster of its own pixels. *)
Lemma wf_image_raster im :
  wf_image im →
  raster (width im) (height im)
    (λ x y, if in_frame im (0 + x) (0 + y)
            then getpixel im (0 + x) (0 + y)
            else zero_pixel (mode im))
  = data im.
Proof.
  intros (Hw & Hh & Hlen & Hrows).
  apply list_eq. intros j.
  destruct (decide (Z.of_nat j < height im)) as [Hj | Hj].
  2:{ rewrite raster_row_None by lia.
      symmetry. apply lookup_ge_None. lia. }
  rewrite raster_row by lia.
  destruct (lookup_lt_is_Some_2 (data im) j ltac:(lia)) as [row Hrow].
  rewrite Hrow. f_equal.
  pose proof (Forall_lookup_1 _ _ _ _ Hrows Hrow) as Hlr. cbn in Hlr.
  apply list_eq. intros i.
  rewrite list_lookup_fmap.
  destruct (decide (Z.of_nat i < width im)) as [Hi | Hi].
  2:{ rewrite lookup_seqZ_ge by lia.
      symmetry. apply lookup_ge_None. lia. }
  rewrite lookup_seqZ_lt by lia. cbn.
  rewrite in_frame_true by lia.
  destruct (lookup_lt_is_Some_2 row i ltac:(lia)) as [p Hp].
  rewrite Hp. f_equal. unfold getpixel.
  replace (Z.to_nat (0 + Z.of_nat j)) with j by lia.
  replace (Z.to_nat (0 + (0 + Z.of_nat i))) with i by lia.
  rewrite Hrow. cbn. by rewrite Hp.
Qed.

(** Where a well-formed buffer is read inside its frame, it holds a
    pixel, and that pixel is what [getpixel] returns. *)
Lemma pixel_at_raster m w h f x y :
  0 ≤ x < w → 0 ≤ y < h →
  pixel_at (mkImage m (w, h) (raster w h f)) x y = Some (f x y).
Proof.
  intros Hx Hy. unfold pixel_at. cbn [data].
  rewrite (proj2 (Z.leb_le 0 x)), (proj2 (Z.leb_le 0 y)) by lia.
  cbn [andb]. by apply raster_lookup.
Qed.

Lemma pixel_at_wf im x y :
  wf_image im → 0 ≤ x < width im → 0 ≤ y < height im →
  pixel_at im x y = Some (getpixel im x y).
Proof.
  intros (Hw & Hh & Hlen & Hrows) Hx Hy. unfold pixel_at, getpixel.
  rewrite (proj2 (Z.leb_le 0 x)), (proj2 (Z.leb_le 0 y)) by lia.
  cbn [andb].
  destruct (lookup_lt_is_Some_2 (data im) (Z.to_nat y) ltac:(lia))
    as [row Hrow].
  rewrite Hrow. cbn.
  pose proof (Forall_lookup_1 _ _ _ _ Hrows Hrow) as Hlr. cbn in Hlr.
  destruct (lookup_lt_is_Some_2 row (Z.to_nat x) ltac:(lia)) as [p Hp].
  by rewrite Hp.
Qed.

(** Outside the rows or the columns of a well-formed buffer there is no
    pixel. *)
Lemma pixel_at_outside im x y :
  wf_image im → height im ≤ y ∨ width im ≤ x → pixel_at im x y = None.
Proof.
  intros (Hw & Hh & Hlen & Hrows) Hout. unfold pixel_at.
  destruct ((0 <=? x) && (0 <=? y)) eqn:Hpos; [|done].
  apply andb_true_iff in Hpos as [Hx%Z.leb_le Hy%Z.leb_le].
  destruct (data im !! Z.to_nat y) as [row|] eqn:Hrow; [|done]. cbn.
  pose proof (Forall_lookup_1 _ _ _ _ Hrows Hrow) as Hlr. cbn in Hlr.
  destruct Hout as [Hout | Hout].
  - apply lookup_lt_Some in Hrow. lia.
  - apply lookup_ge_None. lia.
Qed.

End Buffers.

(** ** Facts about the three computations of the script *)

Section Computations.

Context `{Resampler} `{Machine}.
Implicit Types (im : Image).

(** Within the dimensions of a PNG header the float detour is exact. *)
Lemma new_height_floor W Ht :
  0 < W ≤ max_dimension → 0 ≤ Ht ≤ max_dimension →
  new_height W Ht = Ok (1200 * Ht / W).
Proof.
  intros HW HH. unfold new_height, new_width, max_dimension in *.
  destruct (int_true_divide_floor (1200 * Ht) W) as (x & -> & <-);
    [lia | lia | done].
Qed.

Lemma new_height_zero_width Ht : new_height 0 Ht = Raise ZeroDivisionError.
Proof. done. Qed.

Lemma divide_pos_not_zero_division a b :
  PyNum.divide_pos a b ≠ Raise ZeroDivisionError.
Proof.
  unfold PyNum.divide_pos.
  destruct (PyNum.scaled_divmod _ _ _) as [[q r] d].
  by destruct (_ && _).
Qed.

Lemma new_height_nonzero_width W Ht :
  W ≠ 0 → new_height W Ht ≠ Raise ZeroDivisionError.
Proof.
  intros HW. unfold new_height, PyNum.true_divide.
  rewrite (proj2 (Z.eqb_neq W 0) HW).
  destruct (_ =? 0); [done|].
  pose proof (divide_pos_not_zero_division
                (Z.abs (new_width * Ht)) (Z.abs W)) as Hd.
  destruct (PyNum.divide_pos _ _) as [x | e]; [done|].
  cbn. congruence.
Qed.

(** The only exceptions of the height computation. *)
Lemma new_height_raises W Ht e :
  new_height W Ht = Raise e → e = ZeroDivisionError ∨ e = OverflowError.
Proof.
  unfold new_height, PyNum.true_divide.
  destruct (W =? 0); [cbn; intros [= <-]; by left|].
  destruct (_ =? 0); [done|].
  unfold PyNum.divide_pos.
  destruct (PyNum.scaled_divmod _ _ _) as [[q r] d].
  destruct (_ && _); [cbn; intros [= <-]; by right | done].
Qed.

Lemma new_height_zero_height W : W ≠ 0 → new_height W 0 = Ok 0.
Proof.
  intros HW. unfold new_height, PyNum.true_divide.
  rewrite (proj2 (Z.eqb_neq W 0) HW). by rewrite Z.mul_0_r.
Qed.

Lemma fits_c_int_true z : INT_MIN ≤ z ≤ INT_MAX → fits_c_int z = true.
Proof.
  intros Hz. unfold fits_c_int.
  rewrite andb_true_iff, !Z.leb_le. lia.
Qed.

Lemma fits_c_int_above z : INT_MAX < z → fits_c_int z = false.
Proof.
  intros Hz. unfold fits_c_int.
  rewrite (proj2 (Z.leb_gt z INT_MAX)) by lia. apply andb_false_r.
Qed.

(** A resize to another, proper size that the machine can hold returns
    the buffer the resampler fills. *)
Lemma resize_fresh im sz :
  size im ≠ sz → 1 ≤ sz.1 ≤ INT_MAX → 1 ≤ sz.2 ≤ INT_MAX →
  can_resize im sz = true →
  resize im sz
  = Ok (mkImage (mode im) sz (raster sz.1 sz.2 (resample_pixel im sz))).
Proof.
  intros Hne H1 H2 Hfit. unfold resize.
  destruct (decide (size im = sz)); [done|].
  rewrite !fits_c_int_true by (unfold INT_MIN, INT_MAX in *; lia).
  cbn [andb negb].
  rewrite (proj2 (Z.ltb_ge sz.1 1)), (proj2 (Z.ltb_ge sz.2 1)) by lia.
  by rewrite Hfit.
Qed.

(** A resize to a proper size that the machine can hold returns a new
    buffer of that size. *)
Lemma resize_ok im sz :
  1 ≤ sz.1 ≤ INT_MAX → 1 ≤ sz.2 ≤ INT_MAX →
  size im = sz ∨ can_resize im sz = true →
  ∃ r, resize im sz = Ok r ∧ size r = sz ∧ mode r = mode im.
Proof.
  intros H1 H2 Hfit. unfold resize.
  destruct (decide (size im = sz)) as [E | Hne]; [by eexists|].
  destruct Hfit as [|Hfit]; [done|].
  rewrite !fits_c_int_true by (unfold INT_MIN, INT_MAX in *; lia).
  cbn [andb negb].
  rewrite (proj2 (Z.ltb_ge sz.1 1)), (proj2 (Z.ltb_ge sz.2 1)) by lia.
  rewrite Hfit. cbn [orb negb]. by eexists.
Qed.

Lemma resize_wf im sz r :
  wf_image im → sz.1 ≤ max_dimension → sz.2 ≤ max_dimension →
  resize im sz = Ok r → wf_image r.
Proof.
  intros Hwf H1 H2. unfold resize.
  destruct (decide (size im = sz)); [congruence|].
  destruct (negb (_ && _)); [done|].
  destruct (Z.ltb_spec sz.1 1); [done|].
  destruct (Z.ltb_spec sz.2 1); [done|].
  cbn [orb]. destruct (negb _); [done|].
  intros [= <-]. destruct sz as [w h]. apply raster_wf; cbn in *; lia.
Qed.

(** A resize to an empty size of a source of another size is refused. *)
Lemma resize_empty im sz :
  size im ≠ sz → INT_MIN ≤ sz.1 ≤ INT_MAX → INT_MIN ≤ sz.2 ≤ INT_MAX →
  sz.1 < 1 ∨ sz.2 < 1 → resize im sz = Raise ValueError.
Proof.
  intros Hne H1 H2 Hz. unfold resize.
  destruct (decide (size im = sz)); [done|].
  rewrite !fits_c_int_true by done. cbn [andb negb].
  destruct (Z.ltb_spec sz.1 1); [done|].
  destruct (Z.ltb_spec sz.2 1); [done | lia].
Qed.

(** A resize to a height beyond a C int is refused. *)
Lemma resize_overflow im sz :
  size im ≠ sz → INT_MAX < sz.2 → resize im sz = Raise OverflowError.
Proof.
  intros Hne Hbig. unfold resize.
  destruct (decide (size im = sz)); [done|].
  by rewrite (fits_c_int_above sz.2 Hbig), andb_false_r.
Qed.

(** A resize that the machine cannot hold ends with [MemoryError]. *)
Lemma resize_no_memory im sz :
  size im ≠ sz → 1 ≤ sz.1 ≤ INT_MAX → 1 ≤ sz.2 ≤ INT_MAX →
  can_resize im sz = false → resize im sz = Raise MemoryError.
Proof.
  intros Hne H1 H2 Hfit. unfold resize.
  destruct (decide (size im = sz)); [done|].
  rewrite !fits_c_int_true by (unfold INT_MIN, INT_MAX in *; lia).
  cbn [andb negb].
  rewrite (proj2 (Z.ltb_ge sz.1 1)), (proj2 (Z.ltb_ge sz.2 1)) by lia.
  by rewrite Hfit.
Qed.

(** The exceptions of a resize, and the mode of its result. *)
Lemma resize_raises im sz e :
  resize im sz = Raise e →
  e = OverflowError ∨ e = ValueError ∨ e = MemoryError.
Proof.
  unfold resize.
  destruct (decide _); [done|].
  destruct (negb (_ && _)); [intros [= <-]; auto|].
  destruct (_ || _); [intros [= <-]; auto|].
  destruct (negb _); [intros [= <-]; auto | done].
Qed.

Lemma resize_mode im sz r : resize im sz = Ok r → mode r = mode im.
Proof.
  unfold resize.
  destruct (decide _); [by intros [= <-]|].
  destruct (negb (_ && _)); [done|].
  destruct (_ || _); [done|].
  destruct (negb _); [done | by intros [= <-]].
Qed.

(** The crop of the script never raises. *)
Lemma crop_box im :
  crop im (left, top, right, bottom) =
  Ok {| mode := mode im;
        size := (1200, 630);
        data := raster 1200 630
                  (λ x y, if in_frame im (0 + x) (0 + y)
                          then getpixel im (0 + x) (0 + y)
                          else zero_pixel (mode im)) |}.
Proof. done. Qed.

(** Cropping a well-formed 1200 by 630 buffer returns it as it is. *)
Lemma crop_full_frame im :
  wf_image im → size im = (1200, 630) →
  crop im (left, top, right, bottom) = Ok im.
Proof.
  intros Hwf Hsz. rewrite crop_box. f_equal.
  pose proof (wf_image_raster im Hwf) as Hr.
  unfold width, height in Hr. rewrite Hsz in Hr. cbn [fst snd] in Hr.
  rewrite Hr. destruct im as [m s d]. cbn in *. by subst.
Qed.

(** The crop of the script is a well-formed frame. *)
Lemma crop_wf im out :
  crop im (left, top, right, bottom) = Ok out → wf_image out.
Proof.
  rewrite crop_box. intros [= <-].
  apply raster_wf; unfold max_dimension; lia.
Qed.

(** Every position of the frame holds a pixel: that of the source
    inside its frame, zero elsewhere. *)
Lemma crop_pixel_at im out x y :
  crop im (left, top, right, bottom) = Ok out →
  0 ≤ x < 1200 → 0 ≤ y < 630 →
  pixel_at out x y =
    Some (if in_frame im x y then getpixel im x y else zero_pixel (mode out)).
Proof.
  rewrite crop_box. intros [= <-] Hx Hy.
  by rewrite pixel_at_raster.
Qed.


End Computations.

(** ** Facts about statements *)

Section Frames.

Context `{Resampler} `{Machine} `{PngCodec}.

Lemma bind_run {A B} (m : Py A) (k : A → Py B) w :
  (m ≫= k) w =
  match m w with
  | (Ok a, w') => k a w'
  | (Raise e, w') => (Raise e, w')
  end.
Proof. done. Qed.

Lemma alloc_run im w :
  ∃ r, alloc im w = (Ok r, mkWorld (files w) (<[r := im]> (objects w)))
       ∧ objects w !! r = None.
Proof.
  eexists; split; [done|].
  apply not_elem_of_dom, is_fresh.
Qed.

(** *** Objects are never dropped or overwritten *)

Lemma keeps_objects_bind {A B} (m : Py A) (k : A → Py B) :
  keeps_objects m → (∀ a, keeps_objects (k a)) → keeps_objects (m ≫= k).
Proof.
  intros Hm Hk w r im Hr. rewrite bind_run.
  specialize (Hm w r im Hr).
  destruct (m w) as [[a | e] w']; cbn in *; [by apply Hk | done].
Qed.

Lemma keeps_objects_lift {A} (x : Result A) : keeps_objects (lift x).
Proof. by intros w r im Hr. Qed.

Lemma keeps_objects_ret {A} (a : A) : keeps_objects (mret a).
Proof. by intros w r im Hr. Qed.

Lemma keeps_objects_deref r : keeps_objects (deref r).
Proof. intros w r' im Hr. unfold deref. by destruct (objects w !! r). Qed.

Lemma keeps_objects_alloc im : keeps_objects (alloc im).
Proof.
  intros w r im' Hr.
  destruct (alloc_run im w) as (r0 & -> & Hfresh). cbn.
  rewrite lookup_insert_ne; [done | congruence].
Qed.

Lemma keeps_objects_write path bs : keeps_objects (write_file path bs).
Proof. by intros w r im Hr. Qed.

Lemma keeps_objects_open path : keeps_objects (Image_open path).
Proof.
  intros w r im Hr. unfold Image_open.
  destruct (files w !! path) as [bs|]; [|done].
  destruct (png_decode bs) as [im'|]; [|done].
  by apply keeps_objects_alloc.
Qed.

Lemma keeps_objects_size r : keeps_objects (Image_size r).
Proof.
  apply keeps_objects_bind; [apply keeps_objects_deref|].
  intros im. apply keeps_objects_ret.
Qed.

(** Resizing allocates: the image it is called on stays as it is. *)
Lemma keeps_objects_resize r sz : keeps_objects (Image_resize r sz).
Proof.
  apply keeps_objects_bind; [apply keeps_objects_deref|]. intros im.
  apply keeps_objects_bind; [apply keeps_objects_lift|]. intros out.
  apply keeps_objects_alloc.
Qed.

(** So does cropping. *)
Lemma keeps_objects_crop r box : keeps_objects (Image_crop r box).
Proof.
  apply keeps_objects_bind; [apply keeps_objects_deref|]. intros im.
  apply keeps_objects_bind; [apply keeps_objects_lift|]. intros out.
  apply keeps_objects_alloc.
Qed.

Lemma keeps_objects_save r path : keeps_objects (Image_save r path).
Proof.
  apply keeps_objects_bind; [apply keeps_objects_deref|]. intros im.
  apply keeps_objects_write.
Qed.

Lemma script_after_open : script = Image_open source_path ≫= after_open.
Proof. done. Qed.

Lemma keeps_objects_after_open image : keeps_objects (after_open image).
Proof.
  apply keeps_objects_bind; [apply keeps_objects_size|]. intros [ow oh].
  apply keeps_objects_bind; [apply keeps_objects_lift|]. intros nh.
  apply keeps_objects_bind; [apply keeps_objects_resize|]. intros ri.
  apply keeps_objects_bind; [apply keeps_objects_crop|]. intros ci.
  apply keeps_objects_save.
Qed.

Lemma keeps_objects_script : keeps_objects script.
Proof.
  rewrite script_after_open.
  apply keeps_objects_bind; [apply keeps_objects_open|].
  apply keeps_objects_after_open.
Qed.

End Frames.

(** ** Running the script *)

Section Run.

Context `{Resampler} `{Machine} `{PngCodec}.

Lemma alloc_inv im w r w' :
  alloc im w = (Ok r, w') →
  objects w' !! r = Some im ∧ files w' = files w.
Proof.
  destruct (alloc_run im w) as (r0 & -> & _). intros [= <- <-]. cbn.
  by rewrite lookup_insert_eq.
Qed.

Lemma deref_run r im w : objects w !! r = Some im → deref r w = (Ok im, w).
Proof. intros Hr. unfold deref. by rewrite Hr. Qed.

Lemma Image_size_run r im w :
  objects w !! r = Some im → Image_size r w = (Ok (size im), w).
Proof.
  intros Hr. unfold Image_size. by rewrite bind_run, (deref_run _ _ _ Hr).
Qed.

Lemma Image_resize_run r im sz w :
  objects w !! r = Some im →
  Image_resize r sz w =
  match resize im sz with
  | Ok out => alloc out w
  | Raise e => (Raise e, w)
  end.
Proof.
  intros Hr. unfold Image_resize.
  rewrite bind_run, (deref_run _ _ _ Hr), bind_run. unfold lift.
  by destruct (resize im sz).
Qed.

Lemma Image_crop_run r im box w :
  objects w !! r = Some im →
  Image_crop r box w =
  match crop im box with
  | Ok out => alloc out w
  | Raise e => (Raise e, w)
  end.
Proof.
  intros Hr. unfold Image_crop.
  rewrite bind_run, (deref_run _ _ _ Hr), bind_run. unfold lift.
  by destruct (crop im box).
Qed.

Lemma Image_save_run r im path w :
  objects w !! r = Some im →
  Image_save r path w = write_file path (png_encode im) w.
Proof.
  intros Hr. unfold Image_save. by rewrite bind_run, (deref_run _ _ _ Hr).
Qed.

(** The statements after [Image.open] compute [transform] on the
    opened image and save its result; a raise leaves the files alone. *)
Lemma after_open_run image im w :
  objects w !! image = Some im →
  ∃ w', after_open image w =
          (match transform im with Ok _ => Ok () | Raise e => Raise e end, w')
        ∧ files w' =
            match transform im with
            | Ok out => <[output_path := png_encode out]> (files w)
            | Raise _ => files w
            end.
Proof.
  intros Him. unfold after_open, transform, width, height.
  rewrite bind_run, (Image_size_run _ _ _ Him).
  destruct (size im) as [ow oh]. cbn [fst snd].
  rewrite bind_run. unfold lift at 1.
  destruct (new_height ow oh) as [nh | e]; [|by eexists].
  cbn [result_bind].
  rewrite bind_run, (Image_resize_run _ _ _ _ Him).
  destruct (resize im (new_width, nh)) as [ri | e]; [|by eexists].
  cbn [result_bind].
  destruct (alloc ri w) as [[r2 | e2] w2] eqn:E2.
  2:{ by destruct (alloc_run ri w) as (? & ? & _); simplify_eq. }
  destruct (alloc_inv _ _ _ _ E2) as [Hr2 Hf2].
  rewrite bind_run, (Image_crop_run _ _ _ _ Hr2).
  destruct (crop ri _) as [ci | e]; [|by eexists].
  destruct (alloc ci w2) as [[r3 | e3] w3] eqn:E3.
  2:{ by destruct (alloc_run ci w2) as (? & ? & _); simplify_eq. }
  destruct (alloc_inv _ _ _ _ E3) as [Hr3 Hf3].
  rewrite (Image_save_run _ _ _ _ Hr3).
  eexists; split; [done|]. cbn. by rewrite Hf3, Hf2.
Qed.

Lemma script_run w :
  ∃ w', script w =
          (match outcome w with Ok _ => Ok () | Raise e => Raise e end, w')
        ∧ files w' =
            match outcome w with
            | Ok out => <[output_path := png_encode out]> (files w)
            | Raise _ => files w
            end.
Proof.
  unfold outcome. rewrite script_after_open, bind_run.
  unfold Image_open.
  destruct (files w !! source_path) as [bs|]; [|by eexists].
  destruct (png_decode bs) as [im|]; [|by eexists].
  destruct (alloc im w) as [[r1 | e1] w1] eqn:E1.
  2:{ by destruct (alloc_run im w) as (? & ? & _); simplify_eq. }
  destruct (alloc_inv _ _ _ _ E1) as [Hr1 <-].
  by apply after_open_run.
Qed.

Lemma script_result w :
  (script w).1 = match outcome w with Ok _ => Ok () | Raise e => Raise e end.
Proof. by destruct (script_run w) as (w' & -> & _). Qed.

Lemma script_files w :
  files (script w).2 =
    match outcome w with
    | Ok out => <[output_path := png_encode out]> (files w)
    | Raise _ => files w
    end.
Proof. destruct (script_run w) as (w' & -> & E). by rewrite <- E. Qed.

(** No file but the output is written. *)
Lemma script_writes_only : writes_only output_path script.
Proof.
  intros w p Hp. rewrite script_files.
  destruct (outcome w); [by rewrite lookup_insert_ne | done].
Qed.

(** What decides the outcome is the content of the source file. *)
Lemma outcome_source w1 w2 :
  files w1 !! source_path = files w2 !! source_path →
  outcome w1 = outcome w2.
Proof. intros E. unfold outcome. by rewrite E. Qed.

End Run.

(** ** The transformation, case by case *)

Section Transform.

Context `{Resampler} `{Machine} `{PngCodec}.
Implicit Types (im : Image).

Lemma outcome_decoded w bs im :
  files w !! source_path = Some bs → png_decode bs = Some im →
  outcome w = transform im.
Proof. intros Hf Hd. unfold outcome. by rewrite Hf, Hd. Qed.

(** Once the height is computed, is at least 1, fits a C int and can be
    held, the resize succeeds and the rest is the crop of its result. *)
Lemma transform_resized im Th :
  new_height (width im) (height im) = Ok Th → 1 ≤ Th ≤ INT_MAX →
  size im = (new_width, Th) ∨ can_resize im (new_width, Th) = true →
  ∃ resized,
    resize im (new_width, Th) = Ok resized ∧
    size resized = (1200, Th) ∧
    mode resized = mode im ∧
    transform im = crop resized (left, top, right, bottom).
Proof.
  intros Hh HTh Hfit.
  destruct (resize_ok im (new_width, Th)) as (r & Hr & Hsz & Hm);
    [dims | done | done |].
  exists r. split_and!; try done.
  unfold transform. rewrite Hh. cbn [result_bind]. by rewrite Hr.
Qed.

(** A height of zero stops the script in [resize], unless the source
    is 1200 wide. *)
Lemma transform_empty im Th :
  new_height (width im) (height im) = Ok Th → INT_MIN ≤ Th < 1 →
  width im ≠ 1200 →
  transform im = Raise ValueError.
Proof.
  intros Hh HTh HW. unfold transform. rewrite Hh. cbn [result_bind].
  rewrite resize_empty;
    [done | | dims
     | dims | right; cbn; lia].
  unfold width in HW. intros E. by rewrite E in HW.
Qed.

(** A height beyond a C int stops it there too. *)
Lemma transform_overflow im Th :
  new_height (width im) (height im) = Ok Th → INT_MAX < Th →
  width im ≠ 1200 →
  transform im = Raise OverflowError.
Proof.
  intros Hh HTh HW. unfold transform. rewrite Hh. cbn [result_bind].
  rewrite resize_overflow; [done | | done].
  unfold width in HW. intros E. by rewrite E in HW.
Qed.


(** The exceptions the transformation can end with. *)
Lemma transform_raises im e :
  transform im = Raise e →
  e = ZeroDivisionError ∨ e = OverflowError ∨ e = ValueError ∨
  e = MemoryError.
Proof.
  unfold transform.
  destruct (new_height _ _) as [nh | e'] eqn:Hnh; cbn [result_bind].
  2:{ intros [= <-]. destruct (new_height_raises _ _ _ Hnh); auto. }
  destruct (resize im (new_width, nh)) as [r | e'] eqn:Hr;
    cbn [result_bind].
  { rewrite crop_box. done. }
  intros [= <-]. destruct (resize_raises _ _ _ Hr) as [-> | [-> | ->]]; auto.
Qed.

(** The exceptions the script can end with: those of [Image.open] and
    of the load, of the division and of [resize]. *)
Lemma script_raises w e :
  (script w).1 = Raise e →
  e ∈ [FileNotFoundError; UnidentifiedImageError; DecompressionBombError;
       OSError; ZeroDivisionError; OverflowError; ValueError; MemoryError].
Proof.
  rewrite script_result. unfold outcome.
  destruct (files w !! source_path) as [bs|].
  2:{ intros [= <-]. set_solver. }
  destruct (png_decode bs) as [im|].
  2:{ intros [= <-].
      destruct (png_error_kind bs) as [-> | [-> | ->]]; set_solver. }
  destruct (transform im) as [out | e'] eqn:Ht; [done|].
  intros [= <-].
  destruct (transform_raises _ _ Ht) as [-> | [-> | [-> | ->]]]; set_solver.
Qed.

(** A source that is already 1200 wide asks [resize] for its own size. *)
Lemma resize_same_width im :
  width im = 1200 → 0 ≤ height im ≤ max_dimension →
  new_height (width im) (height im) = Ok (height im) ∧
  resize im (new_width, height im) = Ok im.
Proof.
  intros HW HH. split.
  - rewrite new_height_floor by (unfold max_dimension in *; lia).
    rewrite HW. f_equal. rewrite Z.mul_comm. apply Z.div_mul. lia.
  - unfold resize. rewrite decide_True; [done|].
    unfold width, height in *. destruct (size im) as [a b]. cbn in *.
    by subst a.
Qed.

(** The floor of [1200 * H / W] against the bound 630. *)
Lemma floor_ge_630 W Ht : 0 < W → 21 * W ≤ 40 * Ht → 630 ≤ 1200 * Ht / W.
Proof. intros HW HH. apply Z.div_le_lower_bound; lia. Qed.

Lemma floor_lt_630 W Ht : 0 < W → 40 * Ht < 21 * W → 1200 * Ht / W < 630.
Proof. intros HW HH. apply Z.div_lt_upper_bound; lia. Qed.

Lemma floor_ge_1 W Ht : 0 < W → W ≤ 1200 * Ht → 1 ≤ 1200 * Ht / W.
Proof. intros HW HH. apply Z.div_le_lower_bound; lia. Qed.

Lemma floor_multiple k : 0 < k → 1200 * (630 * k) / (1200 * k) = 630.
Proof.
  intros Hk. replace (1200 * (630 * k)) with (630 * (1200 * k)) by lia.
  apply Z.div_mul. lia.
Qed.

End Transform.

(** ** The properties of the script *)

Section Properties.

Context `{Resampler} `{Machine} `{PngCodec}.
Implicit Types (im : Image) (w : World).

(** C1, as the code has it. A source of width [W > 0] whose height is
    at least [0.525 * W] (that is, [21 * W ≤ 40 * H]), whose resized
    height [Th = floor (1200 * H / W)] fits a C int and whose resized
    buffer the machine can hold (or which is already 1200 wide), makes
    the script end normally with an output file that holds a
    well-formed image of size exactly 1200 by 630, in the mode of the
    resized image, hence with the same number of bands and with alpha if
    and only if the resized image has it. *)
Theorem output_is_1200_by_630 w bs im :
  files w !! source_path = Some bs → png_decode bs = Some im →
  0 < width im → 21 * width im ≤ 40 * height im →
  let Th := 1200 * height im / width im in
  Th ≤ INT_MAX →
  width im = 1200 ∨ can_resize im (new_width, Th) = true →
  ∃ resized out w',
    resize im (new_width, Th) = Ok resized ∧
    size resized = (1200, Th) ∧
    wf_image resized ∧
    crop resized (left, top, right, bottom) = Ok out ∧
    script w = (Ok (), w') ∧
    files w' !! output_path = Some (png_encode out) ∧
    size out = (1200, 630) ∧
    wf_image out ∧
    mode out = mode resized ∧
    bands (mode out) = bands (mode resized) ∧
    has_alpha (mode out) = has_alpha (mode resized).
Proof.
  intros Hf Hd HW HH Th HTh Hfit.
  pose proof (png_decode_wf _ _ Hd) as Hwf.
  pose proof Hwf as (Hw & Hh & _).
  pose proof (new_height_floor _ _ (conj HW (proj2 Hw)) Hh) as Hnh.
  pose proof (floor_ge_630 _ _ HW HH) as H630. fold Th in Hnh, H630.
  assert (Hfit' : size im = (new_width, Th)
                  ∨ can_resize im (new_width, Th) = true).
  { destruct Hfit as [E | Hfit]; [left | by right].
    destruct (resize_same_width im E Hh) as [Hnh' _].
    rewrite Hnh in Hnh'. injection Hnh' as HTh'.
    unfold width, height in *. destruct (size im) as [a b]. cbn in *.
    by rewrite HTh', E. }
  destruct (transform_resized im Th Hnh ltac:(lia) Hfit')
    as (r & Hr & Hrsz & _ & Ht).
  assert (Hrwf : wf_image r).
  { apply (resize_wf im (new_width, Th)); [done | | | done].
    - dims.
    - dims. }
  destruct (script_run w) as (w' & Hs & Hfw).
  rewrite (outcome_decoded _ _ _ Hf Hd), Ht in Hs, Hfw.
  destruct (crop r _) as [out|] eqn:Hc; [|by rewrite crop_box in Hc].
  pose proof (crop_wf _ _ Hc) as Howf.
  exists r, out, w'. rewrite crop_box in Hc. injection Hc as <-.
  split_and!; try done.
  by rewrite Hfw, lookup_insert_eq.
Qed.


(** C3, as the code has it. For a well-formed source of width [W > 0]
    and height [H ≥ 0] the computed height is [Th = floor (1200 * H /
    W)]. A source 1200 wide is returned by [resize] as it is. For any
    other width, [resize] raises [ValueError] when [Th] is 0,
    [OverflowError] when [Th] does not fit a C int, [MemoryError] when
    the machine cannot hold the buffer, and otherwise returns a
    well-formed buffer of size [(1200, Th)]. *)
Theorem new_height_is_floor im :
  wf_image im → 0 < width im →
  let Th := 1200 * height im / width im in
  new_height (width im) (height im) = Ok Th ∧
  (width im = 1200 → resize im (new_width, Th) = Ok im) ∧
  (width im ≠ 1200 →
     (Th < 1 → resize im (new_width, Th) = Raise ValueError) ∧
     (INT_MAX < Th → resize im (new_width, Th) = Raise OverflowError) ∧
     (1 ≤ Th ≤ INT_MAX → can_resize im (new_width, Th) = false →
        resize im (new_width, Th) = Raise MemoryError) ∧
     (1 ≤ Th ≤ INT_MAX → can_resize im (new_width, Th) = true →
        ∃ resized, resize im (new_width, Th) = Ok resized ∧
                   size resized = (1200, Th) ∧
                   mode resized = mode im ∧
                   wf_image resized)).
Proof.
  intros Hwf HW Th.
  pose proof Hwf as (Hw & Hh & _).
  assert (Hnh : new_height (width im) (height im) = Ok Th)
    by (apply new_height_floor; lia).
  assert (0 ≤ Th) by (apply Z.div_pos; lia).
  split; [done|]. split.
  - intros E. destruct (resize_same_width im E Hh) as [Hnh' Hr].
    rewrite Hnh in Hnh'. injection Hnh' as HTh. by rewrite HTh.
  - intros Hne.
    assert (Hsz : size im ≠ (new_width, Th)).
    { unfold width in Hne. intros E. by rewrite E in Hne. }
    split_and!.
    + intros HTh. apply resize_empty; [done | | | right; cbn; lia];
        dims.
    + intros HTh. by apply resize_overflow.
    + intros HTh Hfit. apply resize_no_memory; [done | | done | done].
      dims.
    + intros HTh Hfit.
      destruct (resize_ok im (new_width, Th)) as (r & Hr & Hrsz & Hm);
        [dims | done | by right |].
      exists r. split_and!; try done.
      apply (resize_wf im (new_width, Th)); [done | | | done].
      * dims.
      * dims.
Qed.

(** C4, as the code has it. No image that the script computes with
    has a zero dimension: what [Image.open] returns is at least 1 by 1,
    so the height computation returns a height and no run of the script
    ends with [ZeroDivisionError]; a file that does not open ends the
    script with the exception of [Image.open]. The division itself
    would raise [ZeroDivisionError] exactly for a width of zero. *)
Theorem no_run_divides_by_zero w :
  (script w).1 ≠ Raise ZeroDivisionError ∧
  (∀ bs im, files w !! source_path = Some bs → png_decode bs = Some im →
            1 ≤ width im ∧ 1 ≤ height im ∧
            new_height (width im) (height im)
            = Ok (1200 * height im / width im)) ∧
  (∀ bs, files w !! source_path = Some bs → png_decode bs = None →
         (script w).1 = Raise (png_error bs)) ∧
  (∀ W Ht, new_height W Ht = Raise ZeroDivisionError ↔ W = 0).
Proof.
  split_and!.
  - rewrite script_result. unfold outcome.
    destruct (files w !! source_path) as [bs|]; [|done].
    destruct (png_decode bs) as [im|] eqn:Hd.
    2:{ destruct (png_error_kind bs) as [-> | [-> | ->]]; done. }
    destruct (png_decode_openable _ _ Hd) as (HW & _ & _).
    unfold transform.
    destruct (new_height _ _) as [nh | e] eqn:Hnh; cbn [result_bind].
    2:{ intros [= ->].
        by apply (new_height_nonzero_width (width im) (height im)); [lia|]. }
    destruct (resize im _) as [r | e] eqn:Hr; cbn [result_bind].
    { by rewrite crop_box. }
    intros [= ->]. by destruct (resize_raises _ _ _ Hr) as [? | [? | ?]].
  - intros bs im _ Hd.
    destruct (png_decode_openable _ _ Hd) as (HW & HH & _).
    destruct (png_decode_wf _ _ Hd) as (Hw & Hh & _).
    split; [done|]. split; [done|]. apply new_height_floor; lia.
  - intros bs Hf Hd. rewrite script_result. unfold outcome.
    by rewrite Hf, Hd.
  - intros W Ht. split.
    + intros E. destruct (decide (W = 0)) as [|Hne]; [done|].
      by destruct (new_height_nonzero_width W Ht Hne).
    + intros ->. apply new_height_zero_width.
Qed.

(** C5. The script is deterministic in the source file: two worlds
    that hold the same bytes at [ChangeList.png] give the same result
    and, if it is a normal end, the same bytes at
    [ChangeList_crop.png]; and a second run in the world the first run
    left gives the result and the output file of the first. *)
Theorem same_source_same_output w1 w2 :
  files w1 !! source_path = files w2 !! source_path →
  ((script w1).1 = (script w2).1 ∧
   ((script w1).1 = Ok () →
    files (script w1).2 !! output_path = files (script w2).2 !! output_path))
  ∧
  ((script (script w1).2).1 = (script w1).1 ∧
   files (script (script w1).2).2 !! output_path
   = files (script w1).2 !! output_path).
Proof.
  intros Hsrc.
  assert (Hrerun : outcome (script w1).2 = outcome w1).
  { apply outcome_source. by apply script_writes_only. }
  rewrite !script_result, !script_files, Hrerun.
  rewrite (outcome_source _ _ Hsrc).
  split; [split; [done|]|split; [done|]].
  - destruct (outcome w2); [|done]. intros _.
    by rewrite !lookup_insert_eq.
  - destruct (outcome w2) as [out | e]; [|done].
    by rewrite !lookup_insert_eq.
Qed.

(** C6. Whenever the script ends with an exception, the files are
    exactly those it started with: no output file is created and an
    existing one is not touched. A missing source file is such a case:
    the script ends with the exception of [Image.open]. *)
Theorem failure_leaves_files w e :
  (script w).1 = Raise e →
  files (script w).2 = files w ∧
  files (script w).2 !! output_path = files w !! output_path ∧
  (files w !! source_path = None → e = FileNotFoundError).
Proof.
  rewrite script_result, script_files. intros He.
  destruct (outcome w) as [out | e'] eqn:E; [done|].
  split_and!; try done.
  intros Hnone. unfold outcome in E. rewrite Hnone in E. congruence.
Qed.

(** C7. A source whose size is [k] times 1200 by 630, [k > 0], is
    resized to exactly 1200 by 630; the crop of that buffer is the
    buffer itself; and the output file holds that buffer. *)
Theorem exact_multiple_passes_through w bs im k :
  files w !! source_path = Some bs → png_decode bs = Some im →
  0 < k → size im = (1200 * k, 630 * k) →
  ∃ resized w',
    new_height (width im) (height im) = Ok 630 ∧
    resize im (new_width, 630) = Ok resized ∧
    size resized = (1200, 630) ∧
    crop resized (left, top, right, bottom) = Ok resized ∧
    script w = (Ok (), w') ∧
    files w' !! output_path = Some (png_encode resized).
Proof.
  intros Hf Hd Hk Hsz.
  pose proof (png_decode_wf _ _ Hd) as Hwf.
  pose proof Hwf as (Hw & Hh & Hrest).
  assert (Hnh : new_height (width im) (height im) = Ok 630).
  { assert (width im = 1200 * k) by (unfold width; by rewrite Hsz).
    assert (height im = 630 * k) by (unfold height; by rewrite Hsz).
    rewrite new_height_floor by lia.
    replace (width im) with (1200 * k) by done.
    replace (height im) with (630 * k) by done.
    by rewrite floor_multiple. }
  assert (Hfit : can_resize im (new_width, 630) = true).
  { apply can_resize_frame;
      [done | by apply (png_decode_openable bs) | dims | dims]. }
  destruct (transform_resized im _ Hnh ltac:(dims) (or_intror Hfit))
    as (r & Hr & Hrsz & _ & Ht).
  assert (Hrwf : wf_image r).
  { by apply (resize_wf im (new_width, 630)). }
  pose proof (crop_full_frame r Hrwf Hrsz) as Hc.
  destruct (script_run w) as (w' & Hs & Hfw).
  rewrite (outcome_decoded _ _ _ Hf Hd), Ht, Hc in Hs, Hfw.
  exists r, w'. split_and!; try done.
  by rewrite Hfw, lookup_insert_eq.
Qed.

(** C8, as the code has it. A source of width [W > 0] whose height is
    below [0.525 * W] but not below [W / 1200] (so that the resized
    height [Th] is at least 1) does not make the crop raise: the script
    ends normally and writes a well-formed image of size 1200 by 630
    (630 rows of 1200 pixels) whose rows below [Th] hold the pixels of
    the resized buffer and whose rows from [Th] on hold zero pixels. *)
Theorem short_source_is_padded w bs im :
  files w !! source_path = Some bs → png_decode bs = Some im →
  0 < width im → 40 * height im < 21 * width im →
  width im ≤ 1200 * height im →
  let Th := 1200 * height im / width im in
  1 ≤ Th < 630 ∧
  ∃ resized out w',
    resize im (new_width, Th) = Ok resized ∧
    size resized = (1200, Th) ∧
    crop resized (left, top, right, bottom) = Ok out ∧
    script w = (Ok (), w') ∧
    files w' !! output_path = Some (png_encode out) ∧
    size out = (1200, 630) ∧
    wf_image out ∧
    (∀ x y, 0 ≤ x < 1200 → 0 ≤ y < Th →
            is_Some (pixel_at resized x y) ∧
            pixel_at out x y = pixel_at resized x y) ∧
    (∀ x y, 0 ≤ x < 1200 → Th ≤ y < 630 →
            pixel_at resized x y = None ∧
            pixel_at out x y = Some (zero_pixel (mode out))).
Proof.
  intros Hf Hd HW Hshort Hone Th.
  pose proof (png_decode_wf _ _ Hd) as Hwf.
  pose proof Hwf as (Hw & Hh & _).
  pose proof (new_height_floor _ _ (conj HW (proj2 Hw)) Hh) as Hnh.
  pose proof (floor_ge_1 _ _ HW Hone) as Hge1.
  pose proof (floor_lt_630 _ _ HW Hshort) as H630.
  fold Th in Hnh, Hge1, H630.
  split; [done|].
  assert (Hfit : can_resize im (new_width, Th) = true).
  { apply can_resize_frame;
      [done | by apply (png_decode_openable bs) | dims | dims]. }
  destruct (transform_resized im Th Hnh ltac:(dims)
              (or_intror Hfit))
    as (r & Hr & Hrsz & _ & Ht).
  assert (Hrwf : wf_image r).
  { apply (resize_wf im (new_width, Th)); [done | | | done];
      dims. }
  assert (Hrw : width r = 1200) by (unfold width; by rewrite Hrsz).
  assert (Hrh : height r = Th) by (unfold height; by rewrite Hrsz).
  destruct (script_run w) as (w' & Hs & Hfw).
  rewrite (outcome_decoded _ _ _ Hf Hd), Ht in Hs, Hfw.
  destruct (crop r _) as [out | e] eqn:Hc; [|by rewrite crop_box in Hc].
  exists r, out, w'. split_and!; try done.
  - by rewrite Hfw, lookup_insert_eq.
  - rewrite crop_box in Hc. by injection Hc as <-.
  - by apply (crop_wf r).
  - intros x y Hx Hy.
    rewrite (crop_pixel_at r out x y Hc) by lia.
    rewrite in_frame_true by lia.
    rewrite (pixel_at_wf r x y Hrwf) by lia. by split; [eexists|].
  - intros x y Hx Hy. split.
    + apply pixel_at_outside; [done | left; lia].
    + rewrite (crop_pixel_at r out x y Hc) by lia.
      by rewrite in_frame_below by lia.
Qed.

(** C9. The script writes no file but [ChangeList_crop.png]: every
    other file, the source among them, is as it was. [Image.open]
    leaves all files as they were, and the image it decoded is held
    unchanged at its reference when the script ends, as is every
    object that existed before: [resize] and [crop] allocate. *)
Theorem source_is_not_modified w :
  (∀ p, p ≠ output_path → files (script w).2 !! p = files w !! p) ∧
  files (script w).2 !! source_path = files w !! source_path ∧
  (∀ r im, objects w !! r = Some im →
           objects (script w).2 !! r = Some im) ∧
  (∀ image w1, Image_open source_path w = (Ok image, w1) →
     files w1 = files w ∧
     ∃ im, files w !! source_path ≫= png_decode = Some im ∧
           objects w1 !! image = Some im ∧
           objects (script w).2 !! image = Some im).
Proof.
  split_and!.
  - intros p Hp. by apply script_writes_only.
  - by apply script_writes_only.
  - apply keeps_objects_script.
  - intros image w1 Hopen.
    assert (Hrest : script w = after_open image w1).
    { by rewrite script_after_open, bind_run, Hopen. }
    unfold Image_open in Hopen.
    destruct (files w !! source_path) as [bs|]; [|done].
    destruct (png_decode bs) as [im|] eqn:Hd; [|done].
    destruct (alloc_inv _ _ _ _ Hopen) as [Him Hfiles].
    split; [done|]. exists im. split_and!; try done.
    rewrite Hrest. by apply keeps_objects_after_open.
Qed.


End Properties.

(** ** Further properties of the script *)

Section Further.

Context `{Resampler} `{Machine} `{PngCodec}.
Implicit Types (im : Image) (w : World).

(** A normal end of [transform] is a 1200 by 630 raster in the mode of
    the source. *)
Lemma transform_ok_shape im out :
  transform im = Ok out →
  ∃ f, out = mkImage (mode im) (1200, 630) (raster 1200 630 f).
Proof.
  unfold transform.
  destruct (new_height _ _) as [nh|]; [|done]. cbn [result_bind].
  destruct (resize im (new_width, nh)) as [r|] eqn:Hr; [|done].
  cbn [result_bind]. rewrite crop_box. intros [= <-].
  rewrite (resize_mode _ _ _ Hr). by eexists.
Qed.


(** X1. The resized height keeps the aspect ratio to within one pixel:
    for a source of width [W > 0] and height [H], the computed height
    [Th] satisfies [Th * W ≤ 1200 * H < (Th + 1) * W]. *)
Theorem aspect_ratio_within_one_pixel W Ht :
  0 < W ≤ max_dimension → 0 ≤ Ht ≤ max_dimension →
  ∃ Th, new_height W Ht = Ok Th ∧
        0 ≤ Th ∧
        Th * W ≤ new_width * Ht < (Th + 1) * W.
Proof.
  intros HW HH. exists (1200 * Ht / W).
  split; [by apply new_height_floor|]. unfold new_width.
  pose proof (Z.mul_div_le (1200 * Ht) W ltac:(lia)).
  pose proof (Z.mul_succ_div_gt (1200 * Ht) W ltac:(lia)).
  split; [apply Z.div_pos; lia | lia].
Qed.



(** X4. Whatever the source, a normal end leaves at
    [ChangeList_crop.png] the encoding of a well-formed image of size
    1200 by 630 (630 rows of 1200 pixels) in the mode of the decoded
    source. *)
Theorem output_is_always_well_formed w :
  (script w).1 = Ok () →
  ∃ bs im out,
    files w !! source_path = Some bs ∧ png_decode bs = Some im ∧
    files (script w).2 !! output_path = Some (png_encode out) ∧
    size out = (1200, 630) ∧
    mode out = mode im ∧
    wf_image out.
Proof.
  rewrite script_result, script_files. unfold outcome.
  destruct (files w !! source_path) as [bs|]; [|done].
  destruct (png_decode bs) as [im|] eqn:Hd; [|done].
  destruct (transform im) as [out|] eqn:Ht; [|done]. intros _.
  exists bs, im, out. rewrite lookup_insert_eq.
  destruct (transform_ok_shape _ _ Ht) as [f ->].
  split_and!; try done.
  apply raster_wf; unfold max_dimension; lia.
Qed.


(** X6. The transformation is idempotent: applied to an image it
    produced, it returns that image unchanged; applied after an
    exception, there is nothing to apply it to. *)
Theorem transform_is_idempotent im :
  result_bind (transform im) transform = transform im.
Proof.
  destruct (transform im) as [out|] eqn:Ht; [|done]. cbn [result_bind].
  destruct (transform_ok_shape _ _ Ht) as [f ->].
  set (out := mkImage _ _ _).
  assert (Hwf : wf_image out)
    by (apply raster_wf; unfold max_dimension; lia).
  assert (Hsz : size out = (new_width, 630)) by reflexivity.
  assert (Hnh : new_height 1200 630 = Ok 630) by (vm_compute; reflexivity).
  unfold transform, width, height. rewrite Hsz. cbn [fst snd].
  change new_width with 1200 at 1. rewrite Hnh. cbn [result_bind].
  unfold resize. rewrite (decide_True _ _ Hsz). cbn [result_bind].
  exact (crop_full_frame out Hwf Hsz).
Qed.

(** X7. A source that is already 1200 pixels wide is not resampled:
    the computed height is its own height, [resize] returns the image
    as it is, and the script crops the source itself. *)
Theorem full_width_source_is_not_resampled im :
  width im = 1200 → 0 ≤ height im ≤ max_dimension →
  new_height (width im) (height im) = Ok (height im) ∧
  resize im (new_width, height im) = Ok im ∧
  transform im = crop im (left, top, right, bottom).
Proof.
  intros HW HH.
  destruct (resize_same_width im HW HH) as [Hnh Hr].
  split; [done|]. split; [done|].
  unfold transform. rewrite Hnh. cbn [result_bind]. by rewrite Hr.
Qed.

End Further.

(** ** Concrete worlds *)

(** A resampler, two machines and a codec to run the script with:
    nearest-neighbour sampling; a machine that holds every buffer and
    one that holds ten million pixels; and files that consist of a
    header alone and stand for an image of one value. A file is a mode
    byte followed by the width and the height as 16-bit big-endian
    numbers (an all-zero image), by these and a byte for the value of
    every band, or by the width and the height as 32-bit numbers (an
    all-zero image). Like [Image.open], the reader refuses a dimension
    of zero and more than [max_pixels] pixels. *)
Module Fixtures.

Definition blank (m : Mode) (w h : Z) : Image :=
  mkImage m (w, h) (raster w h (λ _ _, zero_pixel m)).

Definition filled (m : Mode) (v : Z) (w h : Z) : Image :=
  mkImage m (w, h) (raster w h (λ _ _, replicate (bands m) v)).

Definition nearest : Resampler := λ im sz x y,
  getpixel im (x * width im / sz.1) (y * height im / sz.2).

Definition byte_of_mode (m : Mode) : Byte.byte :=
  match m with
  | M_1 => Byte.x00 | M_L => Byte.x01 | M_LA => Byte.x02
  | M_P => Byte.x03 | M_RGB => Byte.x04 | M_RGBA => Byte.x05
  | M_I => Byte.x06 | M_I16 => Byte.x07
  end.

Definition mode_of_byte (b : Byte.byte) : option Mode :=
  match b with
  | Byte.x00 => Some M_1 | Byte.x01 => Some M_L | Byte.x02 => Some M_LA
  | Byte.x03 => Some M_P | Byte.x04 => Some M_RGB | Byte.x05 => Some M_RGBA
  | Byte.x06 => Some M_I | Byte.x07 => Some M_I16
  | _ => None
  end.

Definition byte_of (n : Z) : Byte.byte :=
  default Byte.x00 (Byte.of_N (Z.to_N (n mod 256))).

Definition byte_value (b : Byte.byte) : Z := Z.of_N (Byte.to_N b).

Definition field (hi lo : Byte.byte) : Z :=
  256 * Z.of_N (Byte.to_N hi) + Z.of_N (Byte.to_N lo).

Definition field4 (a b c d : Byte.byte) : Z :=
  65536 * field a b + field c d.

Definition header (im : Image) : list Byte.byte :=
  [byte_of_mode (mode im);
   byte_of (width im / 256); byte_of (width im);
   byte_of (height im / 256); byte_of (height im)].

(** The checks of [Image.open] on the declared size. *)
Definition check_size (w h : Z) : option PyError :=
  if (w <? 1) || (h <? 1) then Some UnidentifiedImageError
  else if max_pixels <? w * h then Some DecompressionBombError
  else None.

(** The mode, the value of the bands and the size a file declares. *)
Definition declared (bs : list Byte.byte) : option (Byte.byte * Z * Z * Z) :=
  match bs with
  | [m; a; b; c; d] => Some (m, 0, field a b, field c d)
  | [m; a; b; c; d; v] => Some (m, byte_value v, field a b, field c d)
  | [m; a; b; c; d; e; f; g; h] =>
      Some (m, 0, field4 a b c d, field4 e f g h)
  | _ => None
  end.

Definition read (bs : list Byte.byte) : Result Image :=
  match declared bs with
  | Some (m, v, w, h) =>
      match mode_of_byte m with
      | Some m =>
          match check_size w h with
          | Some e => Raise e
          | None => Ok (if v =? 0 then blank m w h else filled m v w h)
          end
      | None => Raise UnidentifiedImageError
      end
  | None => Raise UnidentifiedImageError
  end.

Definition parse (bs : list Byte.byte) : option Image :=
  match read bs with Ok im => Some im | Raise _ => None end.

Definition parse_error (bs : list Byte.byte) : PyError :=
  match read bs with Raise e => e | Ok _ => UnidentifiedImageError end.

Lemma field_range hi lo : 0 ≤ field hi lo ≤ 65535.
Proof.
  unfold field.
  pose proof (Byte.to_N_bounded hi). pose proof (Byte.to_N_bounded lo).
  lia.
Qed.

Lemma declared_range bs m v w h :
  declared bs = Some (m, v, w, h) →
  0 ≤ w ≤ max_dimension ∧ 0 ≤ h ≤ max_dimension.
Proof.
  unfold declared, max_dimension, field4.
  destruct bs as [|b0 [|b1 [|b2 [|b3 [|b4 [|b5 [|b6 [|b7 [|b8 [|]]]]]]]]]];
    try done; intros [= <- <- <- <-];
    repeat match goal with
           | |- context [field ?a ?b] =>
               lazymatch goal with
               | _ : 0 ≤ field a b ≤ 65535 |- _ => fail
               | _ => pose proof (field_range a b)
               end
           end; lia.
Qed.

Lemma read_inv bs im :
  read bs = Ok im →
  ∃ m v w h, (im = blank m w h ∨ im = filled m v w h) ∧
             0 ≤ w ≤ max_dimension ∧ 0 ≤ h ≤ max_dimension ∧
             check_size w h = None.
Proof.
  unfold read.
  destruct (declared bs) as [[[[mb v] w] h]|] eqn:Hdecl; [|done].
  destruct (mode_of_byte mb) as [m|]; [|done].
  destruct (check_size w h) eqn:Hc; [done|]. intros [= <-].
  destruct (declared_range _ _ _ _ _ Hdecl) as [Hw Hh].
  exists m, v, w, h. split; [|done].
  destruct (v =? 0); auto.
Qed.

Lemma check_size_None w h :
  check_size w h = None → 1 ≤ w ∧ 1 ≤ h ∧ w * h ≤ max_pixels.
Proof.
  unfold check_size.
  destruct (Z.ltb_spec w 1); [done|].
  destruct (Z.ltb_spec h 1); [done|]. cbn [orb].
  destruct (Z.ltb_spec max_pixels (w * h)); [done|]. lia.
Qed.

Lemma parse_wf bs im : parse bs = Some im → wf_image im.
Proof.
  unfold parse. destruct (read bs) as [im'|] eqn:Hr; [|done].
  intros [= <-].
  destruct (read_inv _ _ Hr) as (m & v & w & h & [-> | ->] & Hw & Hh & _);
    by apply raster_wf.
Qed.

Lemma parse_openable bs im : parse bs = Some im → openable im.
Proof.
  unfold parse. destruct (read bs) as [im'|] eqn:Hr; [|done].
  intros [= <-].
  destruct (read_inv _ _ Hr) as (m & v & w & h & [-> | ->] & _ & _ & Hc);
    by apply check_size_None.
Qed.

Lemma parse_error_kind bs :
  parse_error bs = UnidentifiedImageError ∨
  parse_error bs = DecompressionBombError ∨
  parse_error bs = OSError.
Proof.
  unfold parse_error, read.
  destruct (declared bs) as [[[[mb v] w] h]|]; [|by left].
  destruct (mode_of_byte mb); [|by left].
  unfold check_size.
  destruct (_ || _); [by left|].
  destruct (_ <? _); [right; by left | by left].
Qed.

Definition header_codec : PngCodec :=
  {| png_decode := parse; png_encode := header; png_error := parse_error;
     png_decode_wf := parse_wf; png_decode_openable := parse_openable;
     png_error_kind := parse_error_kind |}.

(** A machine that holds every buffer. *)
Definition roomy : Machine :=
  {| can_resize := λ _ _, true;
     can_resize_frame := λ _ _ _ _ _ _, eq_refl |}.

(** A machine that holds buffers of at most ten million pixels. *)
Definition tight_limit : Z := 10000000.

Lemma tight_frame (im : Image) (sz : Z * Z) :
  wf_image im → openable im → 1 ≤ sz.1 ≤ 1200 → 1 ≤ sz.2 ≤ 630 →
  (sz.1 * sz.2 <=? tight_limit) = true.
Proof. intros _ _ H1 H2. apply Z.leb_le. unfold tight_limit. nia. Qed.

Definition tight : Machine :=
  {| can_resize := λ _ sz, sz.1 * sz.2 <=? tight_limit;
     can_resize_frame := tight_frame |}.

Definition world_of (bs : list Byte.byte) : World :=
  {| files := {[ source_path := bs ]}; objects := ∅ |}.

(** No source file at all. *)
Definition empty_world : World := {| files := ∅; objects := ∅ |}.

(** RGBA, 4 by 3. *)
Definition small_bytes : list Byte.byte :=
  [Byte.x05; Byte.x00; Byte.x04; Byte.x00; Byte.x03].
(** L, 1000 by 400. *)
Definition wide_bytes : list Byte.byte :=
  [Byte.x01; Byte.x03; Byte.xe8; Byte.x01; Byte.x90].
(** L, 1000 by 400, every pixel 7. *)
Definition grey_bytes : list Byte.byte :=
  [Byte.x01; Byte.x03; Byte.xe8; Byte.x01; Byte.x90; Byte.x07].
(** L, 2401 by 1. *)
Definition thin_bytes : list Byte.byte :=
  [Byte.x01; Byte.x09; Byte.x61; Byte.x00; Byte.x01].
(** A header that declares 100 by 0. *)
Definition flat_bytes : list Byte.byte :=
  [Byte.x01; Byte.x00; Byte.x64; Byte.x00; Byte.x00].
(** A header that declares 0 by 7. *)
Definition void_bytes : list Byte.byte :=
  [Byte.x01; Byte.x00; Byte.x00; Byte.x00; Byte.x07].
(** RGB, 2400 by 1260. *)
Definition double_bytes : list Byte.byte :=
  [Byte.x04; Byte.x09; Byte.x60; Byte.x04; Byte.xec].
(** L, 1 by 1789570. *)
Definition tower_bytes : list Byte.byte :=
  [Byte.x01; Byte.x00; Byte.x00; Byte.x00; Byte.x01;
   Byte.x00; Byte.x1b; Byte.x4e; Byte.x82].
(** L, 1 by 30000. *)
Definition pole_bytes : list Byte.byte :=
  [Byte.x01; Byte.x00; Byte.x01; Byte.x75; Byte.x30].

(** The 4 by 3 source alone, and next to an old output file and an
    object left by earlier work. *)
Definition small_world : World := world_of small_bytes.
Definition busy_world : World :=
  {| files := <[output_path := flat_bytes]> (files small_world);
     objects := {[ 5%positive := blank M_L 1 1 ]} |}.

Definition run (w : World) : Result () * World :=
  @script nearest roomy header_codec w.

Definition run_tight (w : World) : Result () * World :=
  @script nearest tight header_codec w.

Lemma world_of_source bs : files (world_of bs) !! source_path = Some bs.
Proof. apply lookup_singleton_eq. Qed.

Lemma world_of_no_output bs : files (world_of bs) !! output_path = None.
Proof. by apply lookup_singleton_ne. Qed.

Lemma run_decoded bs im :
  parse bs = Some im →
  (run (world_of bs)).1 =
    match @transform nearest roomy im with
    | Ok _ => Ok ()
    | Raise e => Raise e
    end
  ∧ files (run (world_of bs)).2 =
      match @transform nearest roomy im with
      | Ok out => <[output_path := header out]> (files (world_of bs))
      | Raise _ => files (world_of bs)
      end.
Proof.
  intros Hd. unfold run.
  rewrite (@script_result nearest roomy header_codec).
  rewrite (@script_files nearest roomy header_codec).
  by rewrite (@outcome_decoded nearest roomy header_codec _ bs im
                (world_of_source bs) Hd).
Qed.

End Fixtures.

(** ** The properties at concrete inputs *)

(** C1 as stated fails: a 1 by 1789570 source has [H / W ≥ 0.525], its
    resized height 2147484000 does not fit a C int, and the script ends
    in [resize] with [OverflowError] and writes no output. *)
Lemma tower_source_overflows :
  (0 < 1 ∧ 21 * 1 ≤ 40 * 1789570) ∧
  Fixtures.parse Fixtures.tower_bytes = Some (Fixtures.blank M_L 1 1789570) ∧
  new_height 1 1789570 = Ok 2147484000 ∧
  INT_MAX < 2147484000 ∧
  (Fixtures.run (Fixtures.world_of Fixtures.tower_bytes)).1
  = Raise OverflowError ∧
  files (Fixtures.run (Fixtures.world_of Fixtures.tower_bytes)).2
    !! output_path = None.
Proof.
  assert (Hd : Fixtures.parse Fixtures.tower_bytes
               = Some (Fixtures.blank M_L 1 1789570)) by reflexivity.
  assert (Hnh : new_height 1 1789570 = Ok 2147484000)
    by (vm_compute; reflexivity).
  assert (Hbig : INT_MAX < 2147484000) by reflexivity.
  assert (Ht : @transform Fixtures.nearest Fixtures.roomy
                 (Fixtures.blank M_L 1 1789570) = Raise OverflowError).
  { apply (transform_overflow (Fixtures.blank M_L 1 1789570) _ Hnh Hbig).
    discriminate. }
  destruct (Fixtures.run_decoded _ _ Hd) as [Hres Hfiles].
  rewrite Ht in Hres, Hfiles.
  split; [lia|]. split; [exact Hd|]. split; [exact Hnh|].
  split; [exact Hbig|]. split; [exact Hres|].
  rewrite Hfiles. apply Fixtures.world_of_no_output.
Qed.

(** C1 as amended, at an RGBA source of 4 by 3 pixels. *)
Lemma output_is_1200_by_630_witness :
  (0 < 4 ∧ 21 * 4 ≤ 40 * 3 ∧ 900 ≤ INT_MAX) ∧
  ∃ resized out w',
    @resize Fixtures.nearest Fixtures.roomy
      (Fixtures.blank M_RGBA 4 3) (new_width, 900) = Ok resized ∧
    size resized = (1200, 900) ∧
    wf_image resized ∧
    crop resized (left, top, right, bottom) = Ok out ∧
    Fixtures.run (Fixtures.world_of Fixtures.small_bytes) = (Ok (), w') ∧
    files w' !! output_path = Some (Fixtures.header out) ∧
    size out = (1200, 630) ∧
    wf_image out ∧
    mode out = mode resized ∧
    bands (mode out) = bands (mode resized) ∧
    has_alpha (mode out) = has_alpha (mode resized).
Proof.
  split; [unfold INT_MAX; lia|].
  apply (@output_is_1200_by_630 Fixtures.nearest Fixtures.roomy
           Fixtures.header_codec
           (Fixtures.world_of Fixtures.small_bytes) Fixtures.small_bytes
           (Fixtures.blank M_RGBA 4 3)).
  - reflexivity.
  - reflexivity.
  - reflexivity.
  - apply Z.leb_le. reflexivity.
  - apply Z.leb_le. reflexivity.
  - right. reflexivity.
Defined.



(** C3 as stated fails: for a 2401 by 1 source the computed height is
    [floor (1200 / 2401) = 0], and [resize] raises instead of returning
    a 1200 by 0 buffer. *)
Lemma resize_of_2401_by_1_fails :
  (0 < 2401 ∧ 0 ≤ 1) ∧
  Fixtures.parse Fixtures.thin_bytes = Some (Fixtures.blank M_L 2401 1) ∧
  new_height 2401 1 = Ok 0 ∧
  1200 * 1 / 2401 = 0 ∧
  @resize Fixtures.nearest Fixtures.roomy
    (Fixtures.blank M_L 2401 1) (new_width, 0) = Raise ValueError ∧
  ¬ ∃ resized,
      @resize Fixtures.nearest Fixtures.roomy
        (Fixtures.blank M_L 2401 1) (new_width, 0) = Ok resized ∧
      size resized = (1200, 0).
Proof.
  assert (Hr : @resize Fixtures.nearest Fixtures.roomy
                 (Fixtures.blank M_L 2401 1) (new_width, 0)
               = Raise ValueError) by reflexivity.
  split; [lia|]. split; [reflexivity|]. split; [vm_compute; reflexivity|].
  split; [reflexivity|]. split; [exact Hr|].
  intros (r & Hok & _). rewrite Hr in Hok. discriminate.
Qed.

(** The 4 by 3 image is a well-formed buffer. *)
Lemma small_image_wf : wf_image (Fixtures.blank M_RGBA 4 3).
Proof. apply raster_wf; unfold max_dimension; lia. Defined.

(** C3 as amended, at a 4 by 3 source: height 900. *)
Lemma new_height_is_floor_witness :
  0 < 4 ∧
  new_height 4 3 = Ok 900 ∧
  (4 = 1200 →
     @resize Fixtures.nearest Fixtures.roomy
       (Fixtures.blank M_RGBA 4 3) (new_width, 900)
     = Ok (Fixtures.blank M_RGBA 4 3)) ∧
  (4 ≠ 1200 →
     (900 < 1 →
        @resize Fixtures.nearest Fixtures.roomy
          (Fixtures.blank M_RGBA 4 3) (new_width, 900) = Raise ValueError) ∧
     (INT_MAX < 900 →
        @resize Fixtures.nearest Fixtures.roomy
          (Fixtures.blank M_RGBA 4 3) (new_width, 900)
        = Raise OverflowError) ∧
     (1 ≤ 900 ≤ INT_MAX → true = false →
        @resize Fixtures.nearest Fixtures.roomy
          (Fixtures.blank M_RGBA 4 3) (new_width, 900)
        = Raise MemoryError) ∧
     (1 ≤ 900 ≤ INT_MAX → true = true →
        ∃ resized,
          @resize Fixtures.nearest Fixtures.roomy
            (Fixtures.blank M_RGBA 4 3) (new_width, 900) = Ok resized ∧
          size resized = (1200, 900) ∧
          mode resized = M_RGBA ∧
          wf_image resized)).
Proof.
  split; [lia|].
  apply (@new_height_is_floor Fixtures.nearest Fixtures.roomy
           (Fixtures.blank M_RGBA 4 3)).
  - exact small_image_wf.
  - reflexivity.
Defined.

(** C4 as stated fails: a file that declares a width of 0, and one that
    declares a height of 0, do not end the script with a division by
    zero: [Image.open] refuses them. *)
Lemma zero_sized_file_is_refused :
  Fixtures.declared Fixtures.void_bytes = Some (Byte.x01, 0, 0, 7) ∧
  (Fixtures.run (Fixtures.world_of Fixtures.void_bytes)).1
  = Raise UnidentifiedImageError ∧
  Fixtures.declared Fixtures.flat_bytes = Some (Byte.x01, 0, 100, 0) ∧
  (Fixtures.run (Fixtures.world_of Fixtures.flat_bytes)).1
  = Raise UnidentifiedImageError ∧
  (Fixtures.run (Fixtures.world_of Fixtures.void_bytes)).1
  ≠ Raise ZeroDivisionError ∧
  (Fixtures.run (Fixtures.world_of Fixtures.flat_bytes)).1
  ≠ Raise ZeroDivisionError.
Proof.
  assert (Hv : (Fixtures.run (Fixtures.world_of Fixtures.void_bytes)).1
               = Raise UnidentifiedImageError) by reflexivity.
  assert (Hf : (Fixtures.run (Fixtures.world_of Fixtures.flat_bytes)).1
               = Raise UnidentifiedImageError) by reflexivity.
  split; [reflexivity|]. split; [exact Hv|].
  split; [reflexivity|]. split; [exact Hf|].
  rewrite Hv, Hf. split; discriminate.
Qed.

(** C4 as amended, in the world of the 4 by 3 source. *)
Lemma no_run_divides_by_zero_witness :
  (Fixtures.run Fixtures.small_world).1 ≠ Raise ZeroDivisionError ∧
  (1 ≤ 4 ∧ 1 ≤ 3 ∧ new_height 4 3 = Ok 900).
Proof.
  pose proof (@no_run_divides_by_zero Fixtures.nearest Fixtures.roomy
                Fixtures.header_codec Fixtures.small_world)
    as (Hrun & Hsize & _ & _).
  split; [exact Hrun|].
  exact (Hsize Fixtures.small_bytes (Fixtures.blank M_RGBA 4 3)
           eq_refl eq_refl).
Defined.

(** C5 at two worlds that share the source file and nothing else. *)
Lemma same_source_same_output_witness :
  files Fixtures.small_world !! source_path
  = files Fixtures.busy_world !! source_path ∧
  ((Fixtures.run Fixtures.small_world).1 = (Fixtures.run Fixtures.busy_world).1 ∧
   ((Fixtures.run Fixtures.small_world).1 = Ok () →
    files (Fixtures.run Fixtures.small_world).2 !! output_path
    = files (Fixtures.run Fixtures.busy_world).2 !! output_path)) ∧
  ((Fixtures.run (Fixtures.run Fixtures.small_world).2).1
   = (Fixtures.run Fixtures.small_world).1 ∧
   files (Fixtures.run (Fixtures.run Fixtures.small_world).2).2 !! output_path
   = files (Fixtures.run Fixtures.small_world).2 !! output_path).
Proof.
  assert (Hsrc : files Fixtures.small_world !! source_path
                 = files Fixtures.busy_world !! source_path)
    by reflexivity.
  split; [exact Hsrc|].
  exact (@same_source_same_output Fixtures.nearest Fixtures.roomy
           Fixtures.header_codec
           Fixtures.small_world Fixtures.busy_world Hsrc).
Defined.

(** C6 in a world without the source file. *)
Lemma failure_leaves_files_witness :
  (Fixtures.run Fixtures.empty_world).1 = Raise FileNotFoundError ∧
  files (Fixtures.run Fixtures.empty_world).2 = files Fixtures.empty_world ∧
  files (Fixtures.run Fixtures.empty_world).2 !! output_path
  = files Fixtures.empty_world !! output_path ∧
  (files Fixtures.empty_world !! source_path = None →
   FileNotFoundError = FileNotFoundError).
Proof.
  assert (He : (Fixtures.run Fixtures.empty_world).1 = Raise FileNotFoundError)
    by reflexivity.
  split; [exact He|].
  exact (@failure_leaves_files Fixtures.nearest Fixtures.roomy
           Fixtures.header_codec
           Fixtures.empty_world FileNotFoundError He).
Defined.

(** C7 at an RGB source of 2400 by 1260 pixels. *)
Lemma exact_multiple_passes_through_witness :
  ∃ resized w',
    new_height 2400 1260 = Ok 630 ∧
    @resize Fixtures.nearest Fixtures.roomy
      (Fixtures.blank M_RGB 2400 1260) (new_width, 630) = Ok resized ∧
    size resized = (1200, 630) ∧
    crop resized (left, top, right, bottom) = Ok resized ∧
    Fixtures.run (Fixtures.world_of Fixtures.double_bytes) = (Ok (), w') ∧
    files w' !! output_path = Some (Fixtures.header resized).
Proof.
  apply (@exact_multiple_passes_through Fixtures.nearest Fixtures.roomy
           Fixtures.header_codec
           (Fixtures.world_of Fixtures.double_bytes) Fixtures.double_bytes
           (Fixtures.blank M_RGB 2400 1260) 2).
  - reflexivity.
  - reflexivity.
  - reflexivity.
  - reflexivity.
Defined.

(** C8 as stated fails: a 2401 by 1 source has [H / W < 0.525], yet the
    script ends in [resize] with [ValueError] and writes no output. *)
Lemma thin_source_writes_nothing :
  (0 < 2401 ∧ 40 * 1 < 21 * 2401) ∧
  Fixtures.parse Fixtures.thin_bytes = Some (Fixtures.blank M_L 2401 1) ∧
  (Fixtures.run (Fixtures.world_of Fixtures.thin_bytes)).1 = Raise ValueError ∧
  files (Fixtures.run (Fixtures.world_of Fixtures.thin_bytes)).2 !! output_path
  = None.
Proof.
  assert (Hd : Fixtures.parse Fixtures.thin_bytes
               = Some (Fixtures.blank M_L 2401 1)) by reflexivity.
  assert (Hnh : new_height 2401 1 = Ok 0) by (vm_compute; reflexivity).
  assert (Ht : @transform Fixtures.nearest Fixtures.roomy
                 (Fixtures.blank M_L 2401 1) = Raise ValueError).
  { apply (transform_empty (Fixtures.blank M_L 2401 1) 0 Hnh);
      [unfold INT_MIN; lia | discriminate]. }
  destruct (Fixtures.run_decoded _ _ Hd) as [Hres Hfiles].
  rewrite Ht in Hres, Hfiles.
  split; [lia|]. split; [exact Hd|]. split; [exact Hres|].
  rewrite Hfiles. apply Fixtures.world_of_no_output.
Qed.

(** C8 as amended, at the 1000 by 400 source: rows 480 to 629 are zero. *)
Lemma short_source_is_padded_witness :
  (0 < 1000 ∧ 40 * 400 < 21 * 1000 ∧ 1000 ≤ 1200 * 400) ∧
  1 ≤ 480 < 630 ∧
  ∃ resized out w',
    @resize Fixtures.nearest Fixtures.roomy
      (Fixtures.blank M_L 1000 400) (new_width, 480) = Ok resized ∧
    size resized = (1200, 480) ∧
    crop resized (left, top, right, bottom) = Ok out ∧
    Fixtures.run (Fixtures.world_of Fixtures.wide_bytes) = (Ok (), w') ∧
    files w' !! output_path = Some (Fixtures.header out) ∧
    size out = (1200, 630) ∧
    wf_image out ∧
    (∀ x y, 0 ≤ x < 1200 → 0 ≤ y < 480 →
            is_Some (pixel_at resized x y) ∧
            pixel_at out x y = pixel_at resized x y) ∧
    (∀ x y, 0 ≤ x < 1200 → 480 ≤ y < 630 →
            pixel_at resized x y = None ∧
            pixel_at out x y = Some (zero_pixel (mode out))).
Proof.
  split; [lia|].
  apply (@short_source_is_padded Fixtures.nearest Fixtures.roomy
           Fixtures.header_codec
           (Fixtures.world_of Fixtures.wide_bytes) Fixtures.wide_bytes
           (Fixtures.blank M_L 1000 400)).
  - reflexivity.
  - reflexivity.
  - reflexivity.
  - reflexivity.
  - apply Z.leb_le. reflexivity.
Defined.

(** C9 in the world of the 4 by 3 source. *)
Lemma source_is_not_modified_witness :
  files (Fixtures.run (Fixtures.world_of Fixtures.small_bytes)).2 !! source_path
  = files (Fixtures.world_of Fixtures.small_bytes) !! source_path.
Proof.
  exact (proj1 (proj2 (@source_is_not_modified Fixtures.nearest
                         Fixtures.roomy Fixtures.header_codec
                         (Fixtures.world_of Fixtures.small_bytes)))).
Defined.



(** ** The further properties at concrete inputs *)

(** The 4 by 3 source runs to a normal end. *)
Lemma small_world_runs : (Fixtures.run Fixtures.small_world).1 = Ok ().
Proof.
  assert (Hd : Fixtures.parse Fixtures.small_bytes
               = Some (Fixtures.blank M_RGBA 4 3)) by reflexivity.
  assert (Hnh : new_height 4 3 = Ok 900) by (vm_compute; reflexivity).
  destruct (@transform_resized Fixtures.nearest Fixtures.roomy
              (Fixtures.blank M_RGBA 4 3) 900 Hnh
              ltac:(unfold INT_MAX; lia) (or_intror eq_refl))
    as (r & _ & _ & _ & Ht).
  destruct (Fixtures.run_decoded _ _ Hd) as [Hres _].
  by rewrite Ht, crop_box in Hres.
Defined.

(** On the machine of ten million pixels a 1 by 30000 source, whose
    resized buffer would be 1200 by 36000000, ends the script with
    [MemoryError]. *)
Example pole_source_exhausts_memory :
  Fixtures.parse Fixtures.pole_bytes = Some (Fixtures.blank M_L 1 30000) ∧
  new_height 1 30000 = Ok 36000000 ∧
  (Fixtures.run_tight (Fixtures.world_of Fixtures.pole_bytes)).1
  = Raise MemoryError.
Proof.
  split; [reflexivity|]. split; [vm_compute; reflexivity | reflexivity].
Qed.

(** The output for a greyscale source of 1000 by 400 pixels that are
    all 7, under nearest-neighbour sampling: the rows above 480 hold 7,
    the rows from 480 on hold 0, and there is no column 1200 and no row
    630. *)
Lemma grey_rows (im : Image) :
  size im = (1000, 400) → mode im = M_L →
  (∀ x y, 0 ≤ x < 1000 → 0 ≤ y < 400 → getpixel im x y = [7]) →
  ∃ out,
    @transform Fixtures.nearest Fixtures.roomy im = Ok out ∧
    (∀ x y, 0 ≤ x < 1200 → 0 ≤ y < 480 → pixel_at out x y = Some [7]) ∧
    (∀ x y, 0 ≤ x < 1200 → 480 ≤ y < 630 → pixel_at out x y = Some [0]) ∧
    (∀ x y, 1200 ≤ x ∨ 630 ≤ y → pixel_at out x y = None).
Proof.
  intros Hsz Hm Hpx.
  assert (Hw : width im = 1000) by (unfold width; by rewrite Hsz).
  assert (Hh : height im = 400) by (unfold height; by rewrite Hsz).
  assert (Hnh : new_height 1000 400 = Ok 480) by (vm_compute; reflexivity).
  assert (Hr : @resize Fixtures.nearest Fixtures.roomy im (new_width, 480)
               = Ok (mkImage (mode im) (new_width, 480)
                       (raster 1200 480
                          (@resample_pixel Fixtures.nearest
                             im (new_width, 480))))).
  { apply (@resize_fresh Fixtures.nearest Fixtures.roomy im (new_width, 480));
      [rewrite Hsz; discriminate | dims | dims | reflexivity]. }
  set (r := mkImage _ _ _) in Hr.
  assert (Hrw : width r = 1200) by reflexivity.
  assert (Hrh : height r = 480) by reflexivity.
  assert (Hrm : mode r = mode im) by reflexivity.
  assert (Hrpx : ∀ x y, 0 ≤ x < 1200 → 0 ≤ y < 480 →
                        getpixel r x y
                        = getpixel im (x * width im / 1200)
                                      (y * height im / 480)).
  { intros x y Hx Hy. unfold r.
    by rewrite (getpixel_raster _ 1200 480) by lia. }
  clearbody r.
  destruct (crop r (left, top, right, bottom)) as [out|] eqn:Hc;
    [|by rewrite crop_box in Hc].
  exists out. split.
  { unfold transform. rewrite Hw, Hh, Hnh. cbn [result_bind].
    rewrite Hr. cbn [result_bind]. exact Hc. }
  pose proof (crop_wf r out Hc) as Hwf.
  assert (Hosz : size out = (1200, 630)).
  { rewrite crop_box in Hc. by injection Hc as <-. }
  assert (Hom : mode out = M_L).
  { rewrite crop_box in Hc. injection Hc as <-. cbn [mode]. congruence. }
  split_and!.
  - intros x y Hx Hy.
    rewrite (crop_pixel_at r out x y Hc) by lia.
    rewrite in_frame_true by lia. f_equal.
    rewrite Hrpx, Hw, Hh by lia.
    apply Hpx.
    + split; [apply Z.div_pos; lia|].
      apply Z.div_lt_upper_bound; lia.
    + split; [apply Z.div_pos; lia|].
      apply Z.div_lt_upper_bound; lia.
  - intros x y Hx Hy.
    rewrite (crop_pixel_at r out x y Hc) by lia.
    rewrite in_frame_below by lia. by rewrite Hom.
  - intros x y Hout. apply pixel_at_outside; [done|].
    unfold width, height. rewrite Hosz. cbn [fst snd]. lia.
Qed.

Example grey_source_rows :
  ∃ out,
    files (Fixtures.run (Fixtures.world_of Fixtures.grey_bytes)).2
      !! output_path = Some (Fixtures.header out) ∧
    pixel_at out 0 0 = Some [7] ∧
    pixel_at out 1199 479 = Some [7] ∧
    pixel_at out 0 480 = Some [0] ∧
    pixel_at out 1199 629 = Some [0] ∧
    pixel_at out 1200 0 = None ∧
    pixel_at out 0 630 = None.
Proof.
  destruct (grey_rows (Fixtures.filled M_L 7 1000 400) eq_refl eq_refl)
    as (out & Ht & Hin & Hpad & Hnone).
  { intros x y Hx Hy. unfold Fixtures.filled.
    exact (getpixel_raster M_L 1000 400 _ x y Hx Hy). }
  destruct (Fixtures.run_decoded Fixtures.grey_bytes
              (Fixtures.filled M_L 7 1000 400) eq_refl) as [_ Hfiles].
  rewrite Ht in Hfiles.
  exists out. split.
  { rewrite Hfiles. apply lookup_insert_eq. }
  split; [apply Hin; lia|]. split; [apply Hin; lia|].
  split; [apply Hpad; lia|]. split; [apply Hpad; lia|].
  split; apply Hnone; lia.
Qed.

(** X1 at a 1000 by 400 source: height 480. *)
Lemma aspect_ratio_within_one_pixel_witness :
  (0 < 1000 ≤ max_dimension ∧ 0 ≤ 400 ≤ max_dimension) ∧
  ∃ Th, new_height 1000 400 = Ok Th ∧
        0 ≤ Th ∧
        Th * 1000 ≤ new_width * 400 < (Th + 1) * 1000.
Proof.
  split; [unfold max_dimension; lia|].
  apply (aspect_ratio_within_one_pixel 1000 400); unfold max_dimension; lia.
Defined.



(** X4 at the 4 by 3 source. *)
Lemma output_is_always_well_formed_witness :
  ∃ bs im out,
    files Fixtures.small_world !! source_path = Some bs ∧
    Fixtures.parse bs = Some im ∧
    files (Fixtures.run Fixtures.small_world).2 !! output_path
    = Some (Fixtures.header out) ∧
    size out = (1200, 630) ∧
    mode out = mode im ∧
    wf_image out.
Proof.
  exact (@output_is_always_well_formed Fixtures.nearest Fixtures.roomy
           Fixtures.header_codec
           Fixtures.small_world small_world_runs).
Defined.


(** X7 at a source of 1200 by 2 pixels. *)
Lemma full_width_source_is_not_resampled_witness :
  (1200 = 1200 ∧ 0 ≤ 2 ≤ max_dimension) ∧
  new_height 1200 2 = Ok 2 ∧
  @resize Fixtures.nearest Fixtures.roomy
    (Fixtures.blank M_L 1200 2) (new_width, 2)
    = Ok (Fixtures.blank M_L 1200 2) ∧
  @transform Fixtures.nearest Fixtures.roomy (Fixtures.blank M_L 1200 2)
    = crop (Fixtures.blank M_L 1200 2) (left, top, right, bottom).
Proof.
  split; [unfold max_dimension; lia|].
  apply (@full_width_source_is_not_resampled Fixtures.nearest Fixtures.roomy
           (Fixtures.blank M_L 1200 2)).
  - reflexivity.
  - split; apply Z.leb_le; reflexivity.
Defined.
